(** * The hOCR parser and the offset-addressed text view of the NVDA OCR add-on

    A shallow embedding of [addon/globalPlugins/ocr/__init__.py]: the class
    [HocrParser] (the three expat handlers and the constructor) and the class
    [OcrTextInfo] (the offset queries and [copy]).

    Conventions of the embedding.
    - A Python [str] is a [string]; every [ascii] stands for the code point
      of the same number, so the alphabet is U+0000..U+00FF.
    - A Python [int] is a [Z].  A Python [float] is a [Q]: the only float
      arithmetic of the program is [origin + int(l) / 2], which binary64
      computes without rounding as long as the integers involved stay below
      [2^52] in magnitude.  Beyond that bound the program rounds, which the
      embedding does not follow: every statement about the value of a
      coordinate carries the bound.  The OverflowError of an integer that
      no float can hold is part of the embedding.  The capture origin is
      the pair of ints the caller takes from [nav.location].
    - The interpreter is CPython 3.11 with its default settings.
    - A raised exception is the [Raise] case of [result]; handlers thread
      the parser object explicitly.
    - The [print] calls of the handlers write to the log only and are left
      out. *)

From Stdlib Require Import Ascii String ZArith QArith Lia Sorted.
From stdpp Require Import gmap strings list.

#[local] Open Scope string_scope.
#[local] Open Scope Z_scope.

(** ** Exceptions and results *)

Inductive exn : Set :=
  | KeyError          (* attrs["class"] on a dict without that key *)
  | AttributeError    (* None.split *)
  | ValueError        (* tuple unpacking of the wrong size, int() of a non-number *)
  | UnboundLocalError (* reading a local that was never assigned *)
  | ExpatError        (* raised by pyexpat on markup that is not well-formed *)
  | OverflowError.    (* an int too large for a float *)

Inductive result (A : Type) : Type :=
  | Return (a : A)
  | Raise (e : exn).
Arguments Return {A} a.
Arguments Raise {A} e.

Definition bind {A B : Type} (m : result A) (k : A -> result B) : result B :=
  match m with
  | Return a => k a
  | Raise e => Raise e
  end.

Notation "x <- m ;; k" := (bind m (fun x => k))
  (at level 100, m at next level, right associativity).

Definition raises {A : Type} (m : result A) : Prop := exists e, m = Raise e.

(** ** The Python builtins the program uses *)

Module Py.

(** [c.isspace()] for a code point below 256. *)
Definition isspace_char (c : ascii) : bool :=
  let n := N_of_ascii c in
  ((9 <=? n) && (n <=? 13) || (28 <=? n) && (n <=? 32)
   || (n =? 133) || (n =? 160))%N.

Fixpoint all_space (s : string) : bool :=
  match s with
  | EmptyString => true
  | String c s' => isspace_char c && all_space s'
  end.

(** [s.isspace()]: every character is whitespace and there is at least one. *)
Definition isspace (s : string) : bool :=
  match s with
  | EmptyString => false
  | _ => all_space s
  end.

(** [len(s)] *)
Definition len (s : string) : Z := Z.of_nat (String.length s).

(** ["".join(l)] *)
Definition join (l : list string) : string :=
  fold_right String.append "" l.

(** [s.split(" ")]: cut at every single space; never returns an empty list. *)
Fixpoint split_space (s : string) : list string :=
  match s with
  | EmptyString => [""]
  | String c s' =>
      if Ascii.eqb c " "%char then "" :: split_space s'
      else match split_space s' with
           | tok :: toks => String c tok :: toks
           | [] => [String c ""]
           end
  end.

(** [int(s)] on a string, base 10.  Surrounding whitespace is stripped
    (the six ASCII blanks, and U+0085 and U+00A0), then comes an optional
    sign, then decimal digits in which single underscores may separate
    digits; a string of more than 4300 digit characters is refused
    ([sys.int_info.default_max_str_digits]).  [None] stands for
    [ValueError]. *)
Definition int_blank (c : ascii) : bool :=
  let n := N_of_ascii c in
  ((9 <=? n) && (n <=? 13) || (n =? 32) || (n =? 133) || (n =? 160))%N.

Definition digit_val (c : ascii) : option Z :=
  let n := N_of_ascii c in
  if ((48 <=? n) && (n <=? 57))%N then Some (Z.of_N n - 48) else None.

Fixpoint lstrip (s : string) : string :=
  match s with
  | String c s' => if int_blank c then lstrip s' else s
  | EmptyString => EmptyString
  end.

Fixpoint all_blank_from (s : string) : bool :=
  match s with
  | EmptyString => true
  | String c s' => int_blank c && all_blank_from s'
  end.

(** The digits after the first one: [acc] is the value read so far,
    [after_us] tells that the previous character was an underscore.
    Trailing blanks are accepted once the digits are over. *)
Fixpoint digits_tail (s : string) (acc : Z) (after_us : bool) : option Z :=
  match s with
  | EmptyString => if after_us then None else Some acc
  | String c s' =>
      match digit_val c with
      | Some d => digits_tail s' (10 * acc + d) false
      | None =>
          if Ascii.eqb c "_"%char then
            if after_us then None else digits_tail s' acc true
          else if after_us then None
          else if all_blank_from s then Some acc else None
      end
  end.

Definition digits (s : string) : option Z :=
  match s with
  | String c s' =>
      match digit_val c with
      | Some d => digits_tail s' d false
      | None => None
      end
  | EmptyString => None
  end.

Fixpoint count_digits (s : string) : Z :=
  match s with
  | EmptyString => 0
  | String c s' =>
      match digit_val c with
      | Some _ => 1 + count_digits s'
      | None => count_digits s'
      end
  end.

Definition int_max_str_digits : Z := 4300.

Definition int (s : string) : option Z :=
  if int_max_str_digits <? count_digits s then None
  else
    match lstrip s with
    | String "+" s' => digits s'
    | String "-" s' => Z.opp <$> digits s'
    | s' => digits s'
    end.

(** [int(x)] on a float: truncation toward zero. *)
Definition int_of_float (x : Q) : Z := Z.quot (Qnum x) (Zpos (Qden x)).

(** [n / d] on two ints (true division), as an exact rational. *)
Definition truediv (n d : Z) : Q := (inject_Z n / inject_Z d)%Q.

(** The least magnitude that binary64 rounds to an infinity: half an ulp
    above the largest float. *)
Definition float_overflow_bound : Z := 2 ^ 1024 - 2 ^ 970.

(** Whether the conversion of the int [n] to a float raises
    OverflowError, as in [n + x] for a float [x]. *)
Definition float_overflows (n : Z) : bool :=
  float_overflow_bound <=? Z.abs n.

(** Whether [n / d] on two ints raises OverflowError: the quotient is
    rounded once, so it overflows when its magnitude reaches the bound. *)
Definition truediv_overflows (n d : Z) : bool :=
  float_overflow_bound * Z.abs d <=? Z.abs n.

(** [s[start:end]] with Python's clamping of the two bounds. *)
Definition clamp (n i : Z) : Z :=
  if i <? 0 then Z.max 0 (i + n) else Z.min i n.

Definition slice (s : string) (start stop : Z) : string :=
  let n := len s in
  let a := clamp n start in
  let b := clamp n stop in
  String.substring (Z.to_nat a) (Z.to_nat (b - a)) s.

End Py.

(** ** The markup as expat reports it

    [xml.parsers.expat] is not part of the add-on.  What the add-on sees of
    a markup string is the sequence of handler calls expat makes for it, in
    document order, and the way the input ends. *)

Inductive event : Type :=
  | StartElement (tag : string) (attrs : gmap string string)
  | EndElement (tag : string)
  | CharacterData (data : string).

Inductive ending : Set :=
  | Complete     (* the root element is closed: the document is well-formed *)
  | Unfinished   (* the input stops inside a token or with elements still open *)
  | Invalid.     (* a syntax error follows the events (mismatched tag, bad token) *)

Record markup : Type := Markup { events : list event; ending_of : ending }.

Definition well_formed (xml : markup) : Prop := ending_of xml = Complete.

(** ** HocrParser *)

Definition IMAGE_RESIZE_FACTOR : Z := 2.

(** [OcrWord = namedtuple("OcrWord", ("offset", "left", "top"))] *)
Record OcrWord : Type := mkOcrWord { offset : Z; left : Q; top : Q }.

Record HocrParser : Type := mkHocrParser {
  leftCoordOffset : Z;
  topCoordOffset : Z;
  _textList : list string;
  textLen : Z;
  lines : list Z;
  words : list OcrWord;
  _hasBlockHadContent : bool;
  text : string   (* assigned when parsing is over, [""] until then *)
}.

Definition set_hasBlockHadContent (b : bool) (self : HocrParser) : HocrParser :=
  mkHocrParser (leftCoordOffset self) (topCoordOffset self) (_textList self)
    (textLen self) (lines self) (words self) b (text self).

Definition append_line (n : Z) (self : HocrParser) : HocrParser :=
  mkHocrParser (leftCoordOffset self) (topCoordOffset self) (_textList self)
    (textLen self) (lines self ++ [n]) (words self)
    (_hasBlockHadContent self) (text self).

Definition append_word (w : OcrWord) (self : HocrParser) : HocrParser :=
  mkHocrParser (leftCoordOffset self) (topCoordOffset self) (_textList self)
    (textLen self) (lines self) (words self ++ [w])
    (_hasBlockHadContent self) (text self).

(** The last three statements of [_charData]. *)
Definition append_text (data : string) (self : HocrParser) : HocrParser :=
  mkHocrParser (leftCoordOffset self) (topCoordOffset self)
    (_textList self ++ [data]) (textLen self + Py.len data)
    (lines self) (words self) true (text self).

(** [self.text = "".join(self._textList); del self._textList] *)
Definition finish_text (self : HocrParser) : HocrParser :=
  mkHocrParser (leftCoordOffset self) (topCoordOffset self) []
    (textLen self) (lines self) (words self) (_hasBlockHadContent self)
    (Py.join (_textList self)).

(** The value of [origin + int(tok) / IMAGE_RESIZE_FACTOR], once the
    division and the conversion of [origin] to a float have raised
    nothing. *)
Definition toScreen (origin px : Z) : Q :=
  (inject_Z origin + Py.truediv px IMAGE_RESIZE_FACTOR)%Q.

Definition _startElement (self : HocrParser) (tag : string)
    (attrs : gmap string string) : result HocrParser :=
  if String.eqb tag "p" || String.eqb tag "div" then
    Return (set_hasBlockHadContent false self)
  else if String.eqb tag "span" then
    match attrs !! "class" with
    | None => Raise KeyError
    | Some cls =>
        if String.eqb cls "ocr_line" then
          Return (append_line (textLen self) self)
        else if String.eqb cls "ocr_word" then
          match attrs !! "title" with
          | None => Raise AttributeError
          | Some title =>
              match Py.split_space title with
              | [prefix; l; t; r; b] =>
                  match Py.int l with
                  | None => Raise ValueError
                  | Some l =>
                      if Py.truediv_overflows l IMAGE_RESIZE_FACTOR
                      then Raise OverflowError
                      else if Py.float_overflows (leftCoordOffset self)
                      then Raise OverflowError
                      else
                      match Py.int t with
                      | None => Raise ValueError
                      | Some t =>
                          if Py.truediv_overflows t IMAGE_RESIZE_FACTOR
                          then Raise OverflowError
                          else if Py.float_overflows (topCoordOffset self)
                          then Raise OverflowError
                          else
                          Return (append_word
                            (mkOcrWord (textLen self)
                               (toScreen (leftCoordOffset self) l)
                               (toScreen (topCoordOffset self) t)) self)
                      end
                  end
              | _ => Raise ValueError
              end
          end
        else Return self
    end
  else Return self.

Definition _endElement (self : HocrParser) (tag : string) : HocrParser := self.

Definition last_is (l : list string) (data : string) : bool :=
  match last l with
  | Some x => String.eqb x data
  | None => false
  end.

Definition _charData (self : HocrParser) (data : string) : HocrParser :=
  if Py.isspace data then
    if negb (_hasBlockHadContent self) then self
    else
      let data := " " in
      if last_is (_textList self) data then self
      else append_text data self
  else append_text data self.

(** One handler call. *)
Definition handle (self : HocrParser) (ev : event) : result HocrParser :=
  match ev with
  | StartElement tag attrs => _startElement self tag attrs
  | EndElement tag => Return (_endElement self tag)
  | CharacterData data => Return (_charData self data)
  end.

(** The handler calls of one [Parse]: an exception raised by a handler
    stops the parse and leaves [Parse] as it is. *)
Fixpoint run_handlers (self : HocrParser) (evs : list event) : result HocrParser :=
  match evs with
  | [] => Return self
  | ev :: evs' => self' <- handle self ev ;; run_handlers self' evs'
  end.

(** [parser.Parse(data, isfinal)].  A syntax error raises [ExpatError]
    whatever [isfinal] is.  An input that merely stops too early raises
    only on the final call; before that expat waits for more data. *)
Definition Parse (self : HocrParser) (xml : markup) (isfinal : bool)
    : result HocrParser :=
  self' <- run_handlers self (events xml) ;;
  match ending_of xml with
  | Complete => Return self'
  | Invalid => Raise ExpatError
  | Unfinished => if isfinal then Raise ExpatError else Return self'
  end.

(** The object as [__init__] sets it up before [parser.Parse(xml)]. *)
Definition fresh_parser (leftCoordOffset topCoordOffset : Z) : HocrParser :=
  mkHocrParser leftCoordOffset topCoordOffset [] 0 [] [] false "".

(** [HocrParser.__init__(self, xml, leftCoordOffset, topCoordOffset)];
    [parser.Parse(xml)] leaves [isfinal] at its default, [False]. *)
Definition HocrParser_init (xml : markup) (leftCoordOffset topCoordOffset : Z)
    : result HocrParser :=
  self <- Parse (fresh_parser leftCoordOffset topCoordOffset) xml false ;;
  Return (finish_text self).

(** ** OcrTextInfo: the queries, as functions of [self._parser] *)

Record Point : Set := mkPoint { x : Z; y : Z }.

Definition _getTextRange (_parser : HocrParser) (start stop : Z) : string :=
  Py.slice (text _parser) start stop.

Definition _getStoryLength (_parser : HocrParser) : Z := textLen _parser.

(** The loop of [_getLineOffsets]: [start] is the local variable of that
    name, the list is what is left to iterate over. *)
Fixpoint line_scan (ends : list Z) (start o textLen : Z) : Z * Z :=
  match ends with
  | [] => (start, textLen)
  | stop :: rest =>
      if o <? stop then (start, stop)
      else line_scan rest stop o textLen
  end.

Definition _getLineOffsets (_parser : HocrParser) (o : Z) : Z * Z :=
  line_scan (lines _parser) 0 o (textLen _parser).

(** The loop of [_getWordOffsets]. *)
Fixpoint word_scan (ws : list OcrWord) (start o textLen : Z) : Z * Z :=
  match ws with
  | [] => (start, textLen)
  | word :: rest =>
      if o <? offset word then (start, offset word)
      else word_scan rest (offset word) o textLen
  end.

Definition _getWordOffsets (_parser : HocrParser) (o : Z) : Z * Z :=
  word_scan (words _parser) 0 o (textLen _parser).

(** The [for ... else] of [_getPointFromOffset].  [word] is the local
    variable of that name, [None] while it is unbound.  [Some r] is the loop
    left by [break] with [word = r]; [None] is the loop run to its end,
    which is when Python enters the [else] branch. *)
Fixpoint point_scan (ws : list OcrWord) (o : Z) (word : option OcrWord)
    : option (option OcrWord) :=
  match ws with
  | [] => None
  | nextWord :: rest =>
      if o <? offset nextWord then Some word
      else point_scan rest o (Some nextWord)
  end.

Definition _getPointFromOffset (_parser : HocrParser) (o : Z) : result Point :=
  match point_scan (words _parser) o None with
  | None =>
      (* the else branch *)
      Return (mkPoint (leftCoordOffset _parser) (topCoordOffset _parser))
  | Some None => Raise UnboundLocalError
  | Some (Some word) =>
      Return (mkPoint (Py.int_of_float (left word)) (Py.int_of_float (top word)))
  end.

(** ** Objects and references

    [OcrTextInfo] objects hold a reference to the parser object, and
    [copy] passes that reference on.  The heap maps addresses to objects. *)

Definition addr : Type := positive.

(** The attributes of an [OcrTextInfo]: [obj] (the navigator object) and
    the bookmark (start and end offset) are kept by the base class
    [OffsetsTextInfo]; [_parser] is set by [OcrTextInfo.__init__]. *)
Record OcrTextInfo : Type := mkOcrTextInfo {
  obj : addr;
  bookmark : Z * Z;
  _parser : addr
}.

Inductive pyobject : Type :=
  | ParserObject (p : HocrParser)
  | TextInfoObject (t : OcrTextInfo)
  | OtherObject.

(** [self._parser], dereferenced. *)
Definition parser_of (h : gmap addr pyobject) (self : addr) : option HocrParser :=
  match h !! self with
  | Some (TextInfoObject t) =>
      match h !! _parser t with
      | Some (ParserObject p) => Some p
      | _ => None
      end
  | _ => None
  end.

(** A method call [self.q(...)] where the body [q] reads [self._parser] only. *)
Definition call {A : Type} (q : HocrParser -> A) (h : gmap addr pyobject)
    (self : addr) : option A :=
  q <$> parser_of h self.

(** [OcrTextInfo(obj, position, parser)]: a new object at a fresh address. *)
Definition OcrTextInfo_init (h : gmap addr pyobject) (obj : addr)
    (position : Z * Z) (parser : addr) : gmap addr pyobject * addr :=
  let self := fresh (dom h) in
  (<[self := TextInfoObject (mkOcrTextInfo obj position parser)]> h, self).

(** [return self.__class__(self.obj, self.bookmark, self._parser)] *)
Definition copy (h : gmap addr pyobject) (self : addr)
    : option (gmap addr pyobject * addr) :=
  match h !! self with
  | Some (TextInfoObject t) =>
      Some (OcrTextInfo_init h (obj t) (bookmark t) (_parser t))
  | _ => None
  end.

(** ** Vocabulary for the statements *)

(** The attribute dictionaries of the two marker spans. *)
Definition marker (cls : string) : gmap string string := {[ "class" := cls ]}.

Definition word_marker (title : string) : gmap string string :=
  <[ "title" := title ]> (marker "ocr_word").

(** The image-space left and top of a word marker: the second and third
    of the five tokens of its title.  [None] for every other event. *)
Definition bbox_of (ev : event) : option (Z * Z) :=
  match ev with
  | StartElement tag attrs =>
      if String.eqb tag "span" then
        match attrs !! "class", attrs !! "title" with
        | Some cls, Some title =>
            if String.eqb cls "ocr_word" then
              match Py.split_space title with
              | [_; l; t; _; _] =>
                  match Py.int l, Py.int t with
                  | Some L, Some T => Some (L, T)
                  | _, _ => None
                  end
              | _ => None
              end
            else None
        | _, _ => None
        end
      else None
  | _ => None
  end.

(** A title that does not give a left and a top: it has not exactly five
    tokens, or its second or its third token is no integer literal. *)
Definition bad_bbox (title : string) : Prop :=
  length (Py.split_space title) <> 5%nat
  \/ (exists l, Py.split_space title !! 1%nat = Some l /\ Py.int l = None)
  \/ (exists t, Py.split_space title !! 2%nat = Some t /\ Py.int t = None).

Definition coords (w : OcrWord) : Q * Q := (left w, top w).

Definition screen_coords (ox oy : Z) (lt : Z * Z) : Q * Q :=
  (toScreen ox (fst lt), toScreen oy (snd lt)).

(** A point that is exactly [(ox + L/2, oy + T/2)]. *)
Definition exact_point (pt : Point) (ox oy L T : Z) : Prop :=
  (inject_Z (x pt) == inject_Z ox + inject_Z L / 2)%Q
  /\ (inject_Z (y pt) == inject_Z oy + inject_Z T / 2)%Q.

(** What holds of the parser object between two handler calls. *)
Record parser_inv (self : HocrParser) : Prop := mk_parser_inv {
  inv_len : textLen self = Py.len (Py.join (_textList self));
  inv_lines_sorted : StronglySorted Z.le (lines self);
  inv_lines_bounded : Forall (fun b => 0 <= b <= textLen self) (lines self);
  inv_words_sorted : StronglySorted Z.le (map offset (words self));
  inv_words_bounded :
    Forall (fun w => 0 <= offset w <= textLen self) (words self)
}.

(** The document model as the data model section has it, with strictly
    increasing line boundaries. *)
Definition strict_model (p : HocrParser) : Prop :=
  StronglySorted Z.lt (lines p)
  /\ StronglySorted Z.le (map offset (words p))
  /\ Forall (fun b => 0 <= b <= textLen p) (lines p)
  /\ Forall (fun w => 0 <= offset w <= textLen p) (words p).

(** ** Sample documents *)

(** [<p>  Hello   world  </p>] *)
Definition doc_hello : markup :=
  Markup [StartElement "p" ∅; CharacterData "  Hello   world  ";
          EndElement "p"] Complete.

(** [<p><span class="ocr_word" title=TITLE>Hi</span></p>] *)
Definition doc_word (title : string) : markup :=
  Markup [StartElement "p" ∅; StartElement "span" (word_marker title);
          CharacterData "Hi"; EndElement "span"; EndElement "p"] Complete.

(** Two words: [Hi], with the given title, and [yo]. *)
Definition doc_two_words (title : string) : markup :=
  Markup [StartElement "p" ∅;
          StartElement "span" (word_marker title);
          CharacterData "Hi"; EndElement "span";
          StartElement "span" (word_marker "bbox 40 21 60 40");
          CharacterData "yo"; EndElement "span";
          EndElement "p"] Complete.

(** [<p>Hi<span class="ocr_word" title="bbox 40 21 60 40">yo</span></p>]:
    the first word starts at offset 2. *)
Definition doc_late_word : markup :=
  Markup [StartElement "p" ∅; CharacterData "Hi";
          StartElement "span" (word_marker "bbox 40 21 60 40");
          CharacterData "yo"; EndElement "span";
          EndElement "p"] Complete.

(** Two line markers with nothing in between. *)
Definition doc_empty_lines : markup :=
  Markup [StartElement "div" ∅;
          StartElement "span" (marker "ocr_line"); EndElement "span";
          StartElement "span" (marker "ocr_line"); EndElement "span";
          EndElement "div"] Complete.

(** [<html><p>Hello</p>] and nothing more: the root element is never
    closed. *)
Definition doc_unclosed : markup :=
  Markup [StartElement "html" ∅; StartElement "p" ∅;
          CharacterData "Hello"; EndElement "p"] Unfinished.

(** [<html><p>Hello</q></html>] *)
Definition doc_mismatch : markup :=
  Markup [StartElement "html" ∅; StartElement "p" ∅;
          CharacterData "Hello"] Invalid.

(** Line markers at the offsets 5, 12 and 20 of a text of length 20. *)
Definition doc_three_lines : markup :=
  Markup [StartElement "div" ∅; CharacterData "Hello";
          StartElement "span" (marker "ocr_line");
          CharacterData "big red"; EndElement "span";
          StartElement "span" (marker "ocr_line");
          CharacterData "balloons"; EndElement "span";
          StartElement "span" (marker "ocr_line"); EndElement "span";
          EndElement "div"] Complete.

(** [<p><span>x</span></p>]: a span without any attribute. *)
Definition doc_bare_span : markup :=
  Markup [StartElement "p" ∅; StartElement "span" ∅; CharacterData "x";
          EndElement "span"; EndElement "p"] Complete.

(** A heap with a navigator object, the parser object of
    [doc_two_words "bbox 11 21 30 40"] and one view of it. *)
Definition sample_parser : HocrParser :=
  mkHocrParser 100 50 [] 4 []
    [mkOcrWord 0 (211 # 2) (121 # 2); mkOcrWord 2 (240 # 2) (121 # 2)]
    true "Hiyo".

Definition sample_heap : gmap addr pyobject :=
  <[ 3%positive := TextInfoObject (mkOcrTextInfo 1%positive (0, 0) 2%positive) ]>
  (<[ 2%positive := ParserObject sample_parser ]>
   (<[ 1%positive := OtherObject ]> ∅)).

(** ** Vocabulary for the properties of the whole parse *)

(** The events no handler reacts to: every closing tag, and every opening
    tag other than [p], [div] and [span]. *)
Definition inert (ev : event) : bool :=
  match ev with
  | EndElement _ => true
  | StartElement tag _ =>
      negb (String.eqb tag "p" || String.eqb tag "div" || String.eqb tag "span")
  | CharacterData _ => false
  end.

Definition is_line_marker (ev : event) : bool :=
  match ev with
  | StartElement tag attrs =>
      String.eqb tag "span"
      && match attrs !! "class" with
         | Some cls => String.eqb cls "ocr_line"
         | None => false
         end
  | _ => false
  end.

(** A string without any whitespace character. *)
Fixpoint no_space (s : string) : bool :=
  match s with
  | EmptyString => true
  | String c s' => negb (Py.isspace_char c) && no_space s'
  end.

(** Character data the way an OCR engine writes it: never empty (expat
    reports no empty chunk), and either white space only or free of white
    space. *)
Definition hocr_chunk (ev : event) : Prop :=
  match ev with
  | CharacterData d => d <> "" /\ (Py.isspace d = true \/ no_space d = true)
  | _ => True
  end.

(** [spaced b s]: every whitespace character of [s] is a space that comes
    right after a character that is no white space; [b] tells whether
    [s] is at the start of the text or follows white space. *)
Fixpoint spaced (after_blank : bool) (s : string) : bool :=
  match s with
  | EmptyString => true
  | String c s' =>
      if Py.isspace_char c then
        Ascii.eqb c " " && negb after_blank && spaced true s'
      else spaced false s'
  end.

Definition single_spaced (s : string) : bool := spaced true s.

(** Whether white space (or nothing at all) is at the end of [s], given
    [b] for what is before [s]. *)
Fixpoint ends_blank (b : bool) (s : string) : bool :=
  match s with
  | EmptyString => b
  | String c s' => ends_blank (Py.isspace_char c) s'
  end.

(** The point [_getPointFromOffset] makes of a word. *)
Definition point_of (w : OcrWord) : Point :=
  mkPoint (Py.int_of_float (left w)) (Py.int_of_float (top w)).

(** A document of three words on two lines, with the white space an OCR
    engine puts between the elements. *)
Definition doc_page : markup :=
  Markup [StartElement "html" ∅; StartElement "body" ∅;
          StartElement "div" (marker "ocr_page"); CharacterData (String "010" "");
          StartElement "p" (marker "ocr_par"); CharacterData (String "010" "");
          StartElement "span" (marker "ocr_line");
          StartElement "span" (word_marker "bbox 20 40 60 80");
          CharacterData "Hello"; EndElement "span"; CharacterData " ";
          StartElement "span" (word_marker "bbox 70 40 130 80");
          CharacterData "brave"; EndElement "span";
          EndElement "span"; CharacterData (String "010" "");
          StartElement "span" (marker "ocr_line");
          StartElement "span" (word_marker "bbox 20 90 60 130");
          CharacterData "world"; EndElement "span";
          EndElement "span"; CharacterData (String "010" "");
          EndElement "p"; EndElement "div"; EndElement "body";
          EndElement "html"] Complete.

(** What [doc_page] parses to with the origin (100, 50). *)
Definition page_parser : HocrParser :=
  mkHocrParser 100 50 [] 18 [0; 12]
    [mkOcrWord 0 (toScreen 100 20) (toScreen 50 40);
     mkOcrWord 6 (toScreen 100 70) (toScreen 50 40);
     mkOcrWord 12 (toScreen 100 20) (toScreen 50 90)]
    true "Hello brave world ".

(** ** More builtins: the ones the language code uses *)

Module PyLib.

(** [s.split(sep)] for a separator of one character. *)
Fixpoint split_char (sep : ascii) (s : string) : list string :=
  match s with
  | EmptyString => [""]
  | String c s' =>
      if Ascii.eqb c sep then "" :: split_char sep s'
      else match split_char sep s' with
           | tok :: toks => String c tok :: toks
           | [] => [String c ""]
           end
  end.

(** [c in s] for a string [c] of one character. *)
Fixpoint contains_char (c : ascii) (s : string) : bool :=
  match s with
  | EmptyString => false
  | String a s' => Ascii.eqb a c || contains_char c s'
  end.

(** [s.endswith(suffix)] *)
Definition endswith (s suffix : string) : bool :=
  let n := String.length s in
  let m := String.length suffix in
  (m <=? n)%nat && String.eqb (substring (n - m) m s) suffix.

(** [s.rfind(c)] for a string [c] of one character: the index of its last
    occurrence, or -1.  [i] is the index of the first character of [s] and
    [found] the result so far. *)
Fixpoint rfind_from (c : ascii) (s : string) (i found : Z) : Z :=
  match s with
  | EmptyString => found
  | String a s' => rfind_from c s' (i + 1) (if Ascii.eqb a c then i else found)
  end.

Definition rfind (c : ascii) (s : string) : Z := rfind_from c s 0 (-1).

(** The [while] loop of [genericpath._splitext]: whether one of the [n]
    characters from the index [i] on is not a dot. *)
Fixpoint has_name_char (p : string) (i n : nat) : bool :=
  match n with
  | O => false
  | S n' =>
      match String.get i p with
      | Some a => if Ascii.eqb a "." then has_name_char p (S i) n' else true
      | None => true
      end
  end.

(** [os.path.splitext(p)] of [ntpath], which is [_splitext] with the
    separators backslash and slash and the dot.  The extension starts at
    the last dot, if that dot comes after the last separator and after a
    character of the file name that is not a dot. *)
Definition splitext (p : string) : string * string :=
  let sepIndex := Z.max (rfind "\"%char p) (rfind "/"%char p) in
  let dotIndex := rfind "."%char p in
  if (sepIndex <? dotIndex)
     && has_name_char p (Z.to_nat (sepIndex + 1))
          (Z.to_nat (dotIndex - (sepIndex + 1)))
  then (Py.slice p 0 dotIndex, Py.slice p dotIndex (Py.len p))
  else (p, "").

(** [sorted(l)] on strings: the order is that of the code points. *)
Fixpoint insert_sorted (x : string) (l : list string) : list string :=
  match l with
  | [] => [x]
  | y :: l' => if String.leb x y then x :: l else y :: insert_sorted x l'
  end.

Definition sorted (l : list string) : list string :=
  fold_right insert_sorted [] l.

(** [l.index(x)]: the first index of [x]; [None] stands for ValueError. *)
Fixpoint index (x : string) (l : list string) : option nat :=
  match l with
  | [] => None
  | y :: l' => if String.eqb y x then Some O else S <$> index x l'
  end.

(** [l[i]]: a negative index counts from the end; [None] stands for
    IndexError. *)
Definition getitem (l : list string) (i : Z) : option string :=
  let n := Z.of_nat (length l) in
  let j := if i <? 0 then i + n else i in
  if (0 <=? j) && (j <? n) then l !! Z.to_nat j else None.

End PyLib.

(** ** The language tables *)

(** A dict display or comprehension: the pairs are stored from left to
    right, a later pair replacing an earlier one of the same key. *)
Definition dict_of (items : list (string * string)) : gmap string string :=
  fold_left (fun d kv => <[ fst kv := snd kv ]> d) items ∅.

(** The pairs of the display [localesToTesseractLangs = {...}], in its
    order. *)
Definition localesToTesseractLangs_items : list (string * string) :=
  [("bg", "bul"); ("ca", "cat"); ("cs", "ces"); ("zh_CN", "chi_tra");
   ("da", "dan"); ("de", "deu"); ("el", "ell"); ("en", "eng");
   ("fi", "fin"); ("fr", "fra"); ("hu", "hun"); ("id", "ind");
   ("it", "ita"); ("ja", "jpn"); ("ko", "kor"); ("lv", "lav");
   ("lt", "lit"); ("nl", "nld"); ("nb_NO", "nor"); ("pl", "pol");
   ("pt", "por"); ("ro", "ron"); ("ru", "rus"); ("sk", "slk");
   ("sl", "slv"); ("es", "spa"); ("sr", "srp"); ("sv", "swe");
   ("tg", "tgl"); ("tr", "tur"); ("uk", "ukr"); ("vi", "vie")].

Definition localesToTesseractLangs : gmap string string :=
  dict_of localesToTesseractLangs_items.

(** [{v : k for k, v in localesToTesseractLangs.items()}]; the keys of the
    display are distinct, so that [items()] gives its pairs in its order. *)
Definition tesseractLangsToLocales : gmap string string :=
  dict_of (map (fun kv => (snd kv, fst kv)) localesToTesseractLangs_items).

(** [getAvailableTesseractLanguages()], given what [os.listdir(dataDir)]
    returns. *)
Definition getAvailableTesseractLanguages (listing : list string)
    : list string :=
  let dataFiles :=
    List.filter (fun file => PyLib.endswith file ".traineddata") listing in
  map (fun file => fst (PyLib.splitext file)) dataFiles.

(** [getDefaultLanguage()], given what [languageHandler.getLanguage()]
    returns.  ([split] never returns an empty list.) *)
Definition getDefaultLanguage (lang : string) : string :=
  let lang :=
    if (match localesToTesseractLangs !! lang with
        | None => true
        | Some _ => false
        end) && PyLib.contains_char "_" lang
    then match PyLib.split_char "_" lang with
         | tok :: _ => tok
         | [] => lang
         end
    else lang in
  match localesToTesseractLangs !! lang with
  | Some tess => tess
  | None => "eng"
  end.

(** ** The settings dialog *)

(** The exceptions of [onOCRSettings]. *)
Inductive settings_exn : Set :=
  | IndexValueError       (* ValueError of [langs.index('eng')] *)
  | LocaleKeyError        (* KeyError of [tesseractLangsToLocales[lang]] *)
  | SelectionIndexError.  (* IndexError of [langs[dialog.GetSelection()]] *)

Inductive settings_result : Type :=
  | Language (lang : string)   (* [config.conf["ocr"]["language"]] afterwards *)
  | SettingsRaise (e : settings_exn).

(** The comprehension that makes the choices of the dialog:
    [getLanguageDescription(locale) or locale] for every language, where
    [None] and the empty string count as false.  [None] stands for the
    KeyError of a language that has no locale. *)
Fixpoint settings_choices (describe : string -> option string)
    (langs : list string) : option (list string) :=
  match langs with
  | [] => Some []
  | lang :: langs' =>
      match tesseractLangsToLocales !! lang with
      | None => None
      | Some locale =>
          let choice :=
            match describe locale with
            | Some d => if String.eqb d "" then locale else d
            | None => locale
            end in
          cons choice <$> settings_choices describe langs'
      end
  end.

(** [GlobalPlugin.onOCRSettings].  [listing] is what [os.listdir] returns
    for the data directory, [curlang] is [config.conf["ocr"]["language"]],
    [describe] is [languageHandler.getLanguageDescription], and [dialog]
    is the modal dialog: given the choices and the preselected index it
    answers [Some i] for OK with [GetSelection() = i], [None] otherwise.
    The result is the configured language afterwards. *)
Definition onOCRSettings (describe : string -> option string)
    (dialog : list string -> nat -> option Z)
    (listing : list string) (curlang : string) : settings_result :=
  let langs := PyLib.sorted (getAvailableTesseractLanguages listing) in
  match (match PyLib.index curlang langs with
         | Some i => Some i
         | None => PyLib.index "eng" langs
         end) with
  | None => SettingsRaise IndexValueError
  | Some select =>
      match settings_choices describe langs with
      | None => SettingsRaise LocaleKeyError
      | Some choices =>
          match dialog choices select with
          | None => Language curlang
          | Some i =>
              match PyLib.getitem langs i with
              | Some lang => Language lang
              | None => SettingsRaise SelectionIndexError
              end
          end
      end
  end.

(** ** Vocabulary for the language packs *)

Fixpoint all_dots (s : string) : bool :=
  match s with
  | EmptyString => true
  | String c s' => Ascii.eqb c "." && all_dots s'
  end.

(** A name as [os.listdir] gives it for a language pack: no path
    separator in it, and not made of dots only. *)
Definition plain_name (stem : string) : Prop :=
  PyLib.contains_char "/" stem = false
  /\ PyLib.contains_char "\" stem = false
  /\ all_dots stem = false.

(** A dialog that is closed with OK on its [i]-th choice, and one that is
    cancelled. *)
Definition dialog_ok (i : Z) (choices : list string) (select : nat)
    : option Z := Some i.

Definition dialog_cancel (choices : list string) (select : nat)
    : option Z := None.

(** A dialog that is closed with OK on the preselected choice. *)
Definition dialog_accept (choices : list string) (select : nat)
    : option Z := Some (Z.of_nat select).

(** No description for any locale. *)
Definition no_description (locale : string) : option string := None.

(** The size of the image that [script_ocrNavigatorObject] hands to the
    OCR engine for an object of the given width and height:
    [img.resize((width * IMAGE_RESIZE_FACTOR, height * IMAGE_RESIZE_FACTOR), ...)]. *)
Definition ocr_image_size (width height : Z) : Z * Z :=
  (width * IMAGE_RESIZE_FACTOR, height * IMAGE_RESIZE_FACTOR).

(** An element event, as opposed to character data. *)
Definition is_element (ev : event) : Prop :=
  match ev with
  | CharacterData _ => False
  | _ => True
  end.

(** An event that is no character data, or character data that is white
    space only. *)
Definition blank_or_element (ev : event) : Prop :=
  match ev with
  | CharacterData d => Py.isspace d = true
  | _ => True
  end.

(** Two parser objects that differ at most in the coordinates of their
    words. *)
Definition same_but_coords (s s' : HocrParser) : Prop :=
  leftCoordOffset s = leftCoordOffset s'
  /\ topCoordOffset s = topCoordOffset s'
  /\ _textList s = _textList s'
  /\ textLen s = textLen s'
  /\ lines s = lines s'
  /\ _hasBlockHadContent s = _hasBlockHadContent s'
  /\ text s = text s'
  /\ map offset (words s) = map offset (words s').

(** [n] zeros. *)
Fixpoint zeros (n : nat) : string :=
  match n with
  | O => ""
  | S n' => String "0" (zeros n')
  end.

(** A title whose left is 10^400, which no float can hold, and whose top
    is no number. *)
Definition title_huge_left : string := "bbox 1" +:+ zeros 400 +:+ " x 0 0".

(** One document with two blocks: a word in a paragraph, then a division
    that starts with white space and a line marker; the input stops
    there. *)
Definition doc_two_blocks : markup :=
  Markup [StartElement "html" ∅; StartElement "p" ∅;
          StartElement "span" (word_marker "bbox 20 40 60 80");
          CharacterData "Hi"; EndElement "span"; EndElement "p";
          StartElement "div" ∅; CharacterData "  ";
          StartElement "span" (marker "ocr_line");
          CharacterData (String "010" "")] Unfinished.

(** * Properties *)

(** ** The builtins on sample inputs *)

Example isspace_blank : Py.isspace "  " = true. Proof. reflexivity. Qed.
Example isspace_empty : Py.isspace "" = false. Proof. reflexivity. Qed.
Example isspace_mixed : Py.isspace "  Hello   world  " = false. Proof. reflexivity. Qed.
Example split_three : Py.split_space "bbox 10 20 30" = ["bbox"; "10"; "20"; "30"].
Proof. reflexivity. Qed.
Example split_double : Py.split_space "a  b" = ["a"; ""; "b"]. Proof. reflexivity. Qed.
Example split_empty : Py.split_space "" = [""]. Proof. reflexivity. Qed.
Example int_plain : Py.int "12" = Some 12. Proof. reflexivity. Qed.
Example int_neg : Py.int "-12" = Some (-12). Proof. reflexivity. Qed.
Example int_us : Py.int "1_000" = Some 1000. Proof. reflexivity. Qed.
Example int_us2 : Py.int "1__0" = None. Proof. reflexivity. Qed.
Example int_us3 : Py.int "1_" = None. Proof. reflexivity. Qed.
Example int_empty : Py.int "" = None. Proof. reflexivity. Qed.
Example int_sign : Py.int "+" = None. Proof. reflexivity. Qed.
Example int_dot : Py.int "1.5" = None. Proof. reflexivity. Qed.
Example slice_mid : Py.slice "abcdef" 2 4 = "cd". Proof. reflexivity. Qed.
Example slice_neg : Py.slice "abcdef" (-3) (-1) = "de". Proof. reflexivity. Qed.
Example slice_rev : Py.slice "abcdef" 4 2 = "". Proof. reflexivity. Qed.
Example trunc_pos : Py.int_of_float (205 # 2) = 102. Proof. reflexivity. Qed.
Example trunc_neg : Py.int_of_float (-3 # 2) = -1. Proof. reflexivity. Qed.


(** ** Strings and lists *)

Lemma append_cons (c : ascii) (a b : string) :
  String c a +:+ b = String c (a +:+ b).
Proof. reflexivity. Qed.

Lemma length_append_add (a b : string) :
  String.length (a +:+ b) = (String.length a + String.length b)%nat.
Proof.
  induction a as [|c a IH]; [reflexivity|].
  rewrite append_cons. simpl. now rewrite IH.
Qed.

Lemma append_empty_r (a : string) : a +:+ "" = a.
Proof.
  induction a as [|c a IH]; [reflexivity|]. now rewrite append_cons, IH.
Qed.

Lemma append_assoc (a b c : string) : (a +:+ b) +:+ c = a +:+ (b +:+ c).
Proof.
  induction a as [|ch a IH]; [reflexivity|]. now rewrite !append_cons, IH.
Qed.

Lemma join_snoc (l : list string) (d : string) :
  Py.join (l ++ [d]) = Py.join l +:+ d.
Proof.
  induction l as [|a l IH]; simpl.
  - apply append_empty_r.
  - rewrite IH. symmetry. apply append_assoc.
Qed.

Lemma len_join_snoc (l : list string) (d : string) :
  Py.len (Py.join (l ++ [d])) = Py.len (Py.join l) + Py.len d.
Proof. unfold Py.len. rewrite join_snoc, length_append_add. lia. Qed.

Lemma len_nonneg (s : string) : 0 <= Py.len s.
Proof. unfold Py.len. lia. Qed.

Lemma sorted_snoc (l : list Z) (n : Z) :
  StronglySorted Z.le l -> Forall (fun b => b <= n) l ->
  StronglySorted Z.le (l ++ [n]).
Proof.
  induction 1 as [|a l Hs IH Ha]; intros Hn; simpl.
  - repeat constructor.
  - inversion Hn; subst. constructor.
    + now apply IH.
    + apply Forall_app. split; [assumption | now constructor].
Qed.

(** ** Exceptions leave the parse *)

Lemma run_handlers_app (self : HocrParser) (pre post : list event) :
  run_handlers self (pre ++ post) =
  (self' <- run_handlers self pre ;; run_handlers self' post).
Proof.
  revert self. induction pre as [|ev pre IH]; intros self; simpl.
  - reflexivity.
  - destruct (handle self ev) as [self'|e]; simpl; [apply IH | reflexivity].
Qed.

Lemma run_handlers_raises (ev : event) (evs : list event) :
  (forall self, raises (handle self ev)) -> ev ∈ evs ->
  forall self, raises (run_handlers self evs).
Proof.
  intros Hev Hin. induction evs as [|ev' evs IH]; intros self.
  - inversion Hin.
  - simpl. destruct (handle self ev') as [self'|e] eqn:Hh; simpl.
    + apply elem_of_cons in Hin. destruct Hin as [->|Hin].
      * destruct (Hev self) as [e He]. congruence.
      * now apply IH.
    + now exists e.
Qed.

Lemma init_raises (xml : markup) (l t : Z) :
  raises (run_handlers (fresh_parser l t) (events xml)) ->
  raises (HocrParser_init xml l t).
Proof.
  intros [e He]. exists e. unfold HocrParser_init, Parse. now rewrite He.
Qed.

Lemma init_raises_at (pre post : list event) (ev : event) (e : exn)
    (fin : ending) (l t : Z) (self : HocrParser) :
  run_handlers (fresh_parser l t) pre = Return self ->
  handle self ev = Raise e ->
  HocrParser_init (Markup (pre ++ ev :: post) fin) l t = Raise e.
Proof.
  intros Hpre Hev. unfold HocrParser_init, Parse. simpl.
  rewrite run_handlers_app, Hpre. simpl. now rewrite Hev.
Qed.

Lemma init_inv (xml : markup) (l t : Z) (p : HocrParser) :
  HocrParser_init xml l t = Return p ->
  exists self, run_handlers (fresh_parser l t) (events xml) = Return self
               /\ p = finish_text self.
Proof.
  unfold HocrParser_init, Parse. intros H.
  destruct (run_handlers _ _) as [self|e]; simpl in H; [|discriminate].
  exists self. split; [reflexivity|].
  destruct (ending_of xml); simpl in H; congruence.
Qed.

(** ** The invariant of the parser object *)

Lemma fresh_parser_inv (l t : Z) : parser_inv (fresh_parser l t).
Proof. constructor; simpl; try constructor; reflexivity. Qed.

Lemma append_text_inv (data : string) (self : HocrParser) :
  parser_inv self -> parser_inv (append_text data self).
Proof.
  intros [Hlen Hls Hlb Hws Hwb]. pose proof (len_nonneg data) as Hd.
  constructor; simpl; try assumption.
  - rewrite len_join_snoc. lia.
  - eapply Forall_impl; [exact Hlb | simpl; intros; lia].
  - eapply Forall_impl; [exact Hwb | simpl; intros; lia].
Qed.

Lemma charData_inv (self : HocrParser) (data : string) :
  parser_inv self -> parser_inv (_charData self data).
Proof.
  intros Hinv. unfold _charData.
  destruct (Py.isspace data); [|now apply append_text_inv].
  destruct (negb (_hasBlockHadContent self)); [assumption|].
  destruct (last_is (_textList self) " "); [assumption|].
  now apply append_text_inv.
Qed.

Lemma textLen_nonneg (self : HocrParser) : parser_inv self -> 0 <= textLen self.
Proof. intros [Hlen _ _ _ _]. rewrite Hlen. apply len_nonneg. Qed.

Lemma append_line_inv (self : HocrParser) :
  parser_inv self -> parser_inv (append_line (textLen self) self).
Proof.
  intros Hinv. pose proof (textLen_nonneg self Hinv) as H0.
  destruct Hinv as [Hlen Hls Hlb Hws Hwb].
  constructor; simpl; try assumption.
  - apply sorted_snoc; [assumption|].
    eapply Forall_impl; [exact Hlb | simpl; intros; lia].
  - apply Forall_app. split; [assumption|]. constructor; [lia | constructor].
Qed.

Lemma append_word_inv (self : HocrParser) (a b : Q) :
  parser_inv self ->
  parser_inv (append_word (mkOcrWord (textLen self) a b) self).
Proof.
  intros Hinv. pose proof (textLen_nonneg self Hinv) as H0.
  destruct Hinv as [Hlen Hls Hlb Hws Hwb].
  constructor; simpl; try assumption.
  - rewrite map_app. simpl. apply sorted_snoc; [assumption|].
    apply Forall_map. eapply Forall_impl; [exact Hwb | simpl; intros; lia].
  - apply Forall_app. split; [assumption|].
    constructor; [simpl; lia | constructor].
Qed.

Lemma startElement_inv (self self' : HocrParser) (tag : string)
    (attrs : gmap string string) :
  parser_inv self -> _startElement self tag attrs = Return self' ->
  parser_inv self'.
Proof.
  intros Hinv. unfold _startElement.
  destruct (_ || _).
  { intros [= <-]. destruct Hinv. now constructor. }
  destruct (String.eqb tag "span"); [|intros [= <-]; assumption].
  destruct (attrs !! "class") as [cls|]; [|discriminate].
  destruct (String.eqb cls "ocr_line").
  { intros [= <-]. now apply append_line_inv. }
  destruct (String.eqb cls "ocr_word"); [|intros [= <-]; assumption].
  destruct (attrs !! "title") as [title|]; [|discriminate].
  destruct (Py.split_space title) as [|? [|l [|t [|? [|? [|? ?]]]]]];
    try discriminate.
  destruct (Py.int l); [|discriminate].
  destruct (Py.truediv_overflows _ _); [discriminate|].
  destruct (Py.float_overflows _); [discriminate|].
  destruct (Py.int t); [|discriminate].
  destruct (Py.truediv_overflows _ _); [discriminate|].
  destruct (Py.float_overflows _); [discriminate|].
  intros [= <-]. now apply append_word_inv.
Qed.

Lemma handle_inv (self self' : HocrParser) (ev : event) :
  parser_inv self -> handle self ev = Return self' -> parser_inv self'.
Proof.
  intros Hinv. destruct ev as [tag attrs|tag|data]; simpl.
  - now apply startElement_inv.
  - now intros [= <-].
  - intros [= <-]. now apply charData_inv.
Qed.

Lemma run_handlers_inv (evs : list event) (self self' : HocrParser) :
  parser_inv self -> run_handlers self evs = Return self' -> parser_inv self'.
Proof.
  revert self. induction evs as [|ev evs IH]; intros self Hinv; simpl.
  - now intros [= <-].
  - destruct (handle self ev) as [self1|e] eqn:Hh; simpl; [|discriminate].
    apply IH. eapply handle_inv; eassumption.
Qed.

(** Every parser object that [HocrParser.__init__] hands out. *)
Lemma parsed_model (xml : markup) (l t : Z) (p : HocrParser) :
  HocrParser_init xml l t = Return p ->
  StronglySorted Z.le (lines p)
  /\ StronglySorted Z.le (map offset (words p))
  /\ Forall (fun b => 0 <= b <= textLen p) (lines p)
  /\ Forall (fun w => 0 <= offset w <= textLen p) (words p)
  /\ textLen p = Py.len (text p).
Proof.
  intros H. apply init_inv in H. destruct H as (self & Hrun & ->).
  apply run_handlers_inv in Hrun; [|apply fresh_parser_inv].
  destruct Hrun as [Hlen Hls Hlb Hws Hwb]. simpl. auto.
Qed.

(** ** C8: the invariants of the parsed model *)

(** C8, as amended.  After a parse that returns, the line boundaries are in
    non-decreasing order (two line markers with no text between them record
    the same boundary), the words are in non-decreasing order of offset, and
    every line boundary and every word offset lies in [0, storyLength()]. *)
Theorem C8_model_invariants (xml : markup) (l t : Z) (p : HocrParser) :
  HocrParser_init xml l t = Return p ->
  StronglySorted Z.le (lines p)
  /\ StronglySorted Z.le (map offset (words p))
  /\ Forall (fun b => 0 <= b <= _getStoryLength p) (lines p)
  /\ Forall (fun w => 0 <= offset w <= _getStoryLength p) (words p).
Proof.
  intros H. destruct (parsed_model xml l t p H) as (Hl & Hw & Hlb & Hwb & _).
  unfold _getStoryLength. auto.
Qed.

Lemma C8_model_invariants_witness :
  HocrParser_init doc_three_lines 0 0
    = Return (mkHocrParser 0 0 [] 20 [5; 12; 20] [] true "Hellobig redballoons")
  /\ StronglySorted Z.le [5; 12; 20].
Proof.
  split; [reflexivity|].
  exact (proj1 (C8_model_invariants doc_three_lines 0 0 _ eq_refl)).
Defined.

(** C8 as the claim has it fails: [doc_empty_lines] is well-formed, parses,
    and its two line boundaries are both 0. *)
Lemma C8_lines_not_strict :
  well_formed doc_empty_lines
  /\ exists p, HocrParser_init doc_empty_lines 0 0 = Return p
               /\ lines p = [0; 0]
               /\ ~ strict_model p.
Proof.
  split; [reflexivity|].
  eexists. split; [reflexivity|]. split; [reflexivity|].
  intros (Hs & _). simpl in Hs.
  inversion Hs as [|a rest _ Hall]; subst.
  inversion Hall as [|b rest' Hlt _]; subst. lia.
Qed.

(** ** C10: a span without a class attribute *)

(** C10.  On a span without a class attribute [_startElement] raises
    KeyError; a parse that reaches such a span ends with that KeyError, and
    no markup containing one parses.  A span whose class is neither marker
    leaves the parser object as it is. *)
Theorem C10_span_without_class (attrs : gmap string string) :
  attrs !! "class" = None ->
  (forall self, _startElement self "span" attrs = Raise KeyError)
  /\ (forall pre post fin l t self,
        run_handlers (fresh_parser l t) pre = Return self ->
        HocrParser_init (Markup (pre ++ StartElement "span" attrs :: post) fin) l t
          = Raise KeyError)
  /\ (forall xml l t,
        StartElement "span" attrs ∈ events xml ->
        raises (HocrParser_init xml l t))
  /\ (forall self attrs' cls,
        attrs' !! "class" = Some cls -> cls <> "ocr_line" -> cls <> "ocr_word" ->
        _startElement self "span" attrs' = Return self).
Proof.
  intros Hcls.
  assert (Hraise : forall self, _startElement self "span" attrs = Raise KeyError).
  { intros self. unfold _startElement. simpl. now rewrite Hcls. }
  repeat split.
  - exact Hraise.
  - intros pre post fin l t self Hpre.
    eapply init_raises_at; [exact Hpre | apply Hraise].
  - intros xml l t Hin. apply init_raises.
    eapply run_handlers_raises; [|exact Hin].
    intros self. exists KeyError. apply Hraise.
  - intros self attrs' cls Hc Hline Hword. unfold _startElement. simpl.
    rewrite Hc.
    destruct (String.eqb_spec cls "ocr_line"); [contradiction|].
    destruct (String.eqb_spec cls "ocr_word"); [contradiction|].
    reflexivity.
Qed.

Lemma C10_span_without_class_witness :
  (∅ : gmap string string) !! "class" = None
  /\ HocrParser_init doc_bare_span 100 50 = Raise KeyError
  /\ _startElement (fresh_parser 100 50) "span" (marker "ocr_page")
     = Return (fresh_parser 100 50).
Proof.
  assert (Hnone : (∅ : gmap string string) !! "class" = None)
    by apply lookup_empty.
  destruct (C10_span_without_class ∅ Hnone) as (_ & Hat & _ & Hother).
  split; [exact Hnone|]. split.
  - exact (Hat [StartElement "p" ∅]
               [CharacterData "x"; EndElement "span"; EndElement "p"]
               Complete 100 50 _ eq_refl).
  - apply (Hother _ _ "ocr_page"); [reflexivity | discriminate | discriminate].
Defined.

(** ** C2: a word marker whose bounding box cannot be read *)



(** What a recorded word marker tells. *)
Lemma word_marker_recorded (self self' : HocrParser)
    (attrs : gmap string string) (L T : Z) :
  bbox_of (StartElement "span" attrs) = Some (L, T) ->
  _startElement self "span" attrs = Return self' ->
  self' = append_word
            (mkOcrWord (textLen self) (toScreen (leftCoordOffset self) L)
               (toScreen (topCoordOffset self) T)) self
  /\ Py.float_overflows (leftCoordOffset self) = false
  /\ Py.float_overflows (topCoordOffset self) = false.
Proof.
  unfold bbox_of, _startElement. simpl.
  destruct (attrs !! "class") as [cls|]; [|discriminate].
  destruct (attrs !! "title") as [title|]; [|discriminate].
  destruct (String.eqb_spec cls "ocr_word") as [->|]; [|discriminate]. simpl.
  destruct (Py.split_space title) as [|? [|l [|t [|? [|? [|? ?]]]]]];
    try discriminate.
  destruct (Py.int l); [|discriminate].
  destruct (Py.int t); [|discriminate].
  intros [= -> ->].
  destruct (Py.truediv_overflows L _); [discriminate|].
  destruct (Py.float_overflows (leftCoordOffset self)); [discriminate|].
  destruct (Py.truediv_overflows T _); [discriminate|].
  destruct (Py.float_overflows (topCoordOffset self)); [discriminate|].
  now intros [= <-].
Qed.



Lemma same_but_coords_refl (s : HocrParser) : same_but_coords s s.
Proof. unfold same_but_coords. auto 10. Qed.




(** Only the left and the top are converted: a title whose last two tokens
    are no numbers is recorded like any other. *)
Example right_bottom_unread :
  exists p, HocrParser_init (doc_word "bbox 10 20 x y") 100 50 = Return p
            /\ words p = [mkOcrWord 0 (toScreen 100 10) (toScreen 50 20)].
Proof. eexists. split; reflexivity. Qed.

(** A left that no float can hold raises OverflowError before the top is
    looked at. *)
Example huge_left_overflows :
  bad_bbox title_huge_left
  /\ _startElement (fresh_parser 100 50) "span" (word_marker title_huge_left)
     = Raise OverflowError.
Proof.
  split; [|vm_compute; reflexivity].
  right. right. exists "x". split; vm_compute; reflexivity.
Qed.

(** ** C6: markup that is not well-formed *)

(** A syntax error raises, whatever the handlers did before. *)
Lemma invalid_markup_raises (xml : markup) (l t : Z) :
  ending_of xml = Invalid -> raises (HocrParser_init xml l t).
Proof.
  intros Hend. unfold HocrParser_init, Parse. rewrite Hend.
  destruct (run_handlers _ _) as [self|e]; simpl; eexists; reflexivity.
Qed.

Example mismatched_tag_raises :
  HocrParser_init doc_mismatch 100 50 = Raise ExpatError.
Proof. reflexivity. Qed.

(** C6, what the code does.  Markup that stops too early (an unterminated
    tag, elements left open) is not well-formed, and yet, the handlers
    raising nothing, [HocrParser.__init__] returns a parser object holding
    the text, lines and words read so far: [Parse] is never told that the
    input is over. *)
Theorem C6_unfinished_markup_parses (xml : markup) (l t : Z)
    (self : HocrParser) :
  ending_of xml = Unfinished ->
  run_handlers (fresh_parser l t) (events xml) = Return self ->
  ~ well_formed xml
  /\ HocrParser_init xml l t = Return (finish_text self).
Proof.
  intros Hend Hrun. split.
  - unfold well_formed. rewrite Hend. discriminate.
  - unfold HocrParser_init, Parse. rewrite Hrun. simpl. now rewrite Hend.
Qed.

Lemma C6_unfinished_markup_parses_witness :
  ~ well_formed doc_unclosed
  /\ HocrParser_init doc_unclosed 100 50
     = Return (mkHocrParser 100 50 [] 5 [] [] true "Hello").
Proof.
  exact (C6_unfinished_markup_parses doc_unclosed 100 50 _ eq_refl eq_refl).
Defined.

(** ** C4: what [_charData] does to white space *)

(** C4, as amended.  Character data that is white space only is dropped
    while the block has had no content, and otherwise stands for one space,
    which is dropped when the fragment appended last is exactly one space.
    Character data with any other character in it is appended as it is,
    its leading, inner and trailing white space included: a block holding
    just such a chunk yields the chunk unchanged. *)
Theorem C4_charData_normalization (self : HocrParser) (data : string) :
  (Py.isspace data = true -> _hasBlockHadContent self = false ->
     _charData self data = self)
  /\ (Py.isspace data = true -> _hasBlockHadContent self = true ->
        last (_textList self) = Some " " ->
        _charData self data = self)
  /\ (Py.isspace data = true -> _hasBlockHadContent self = true ->
        last (_textList self) <> Some " " ->
        _charData self data = append_text " " self)
  /\ (Py.isspace data = false ->
        _charData self data = append_text data self)
  /\ (Py.isspace data = false ->
        forall l t,
          exists p,
            HocrParser_init
              (Markup [StartElement "p" ∅; CharacterData data; EndElement "p"]
                      Complete) l t = Return p
            /\ text p = data /\ _getStoryLength p = Py.len data).
Proof.
  unfold _charData. repeat split.
  - intros -> ->. reflexivity.
  - intros -> -> Hlast. simpl. unfold last_is. now rewrite Hlast.
  - intros -> -> Hlast. simpl. unfold last_is.
    destruct (last (_textList self)) as [s|]; [|reflexivity].
    destruct (String.eqb_spec s " "); [congruence | reflexivity].
  - intros ->. reflexivity.
  - intros Hsp l t. eexists.
    unfold HocrParser_init, Parse. simpl. unfold _charData. rewrite Hsp. simpl.
    split; [reflexivity|]. simpl. split; [apply append_empty_r | reflexivity].
Qed.

Lemma C4_charData_normalization_witness :
  Py.isspace "  Hello   world  " = false
  /\ _charData (fresh_parser 100 50) "  Hello   world  "
     = append_text "  Hello   world  " (fresh_parser 100 50)
  /\ Py.isspace "   " = true
  /\ _charData (fresh_parser 100 50) "   " = fresh_parser 100 50
  /\ _charData (append_text "Hello" (fresh_parser 100 50)) "   "
     = append_text " " (append_text "Hello" (fresh_parser 100 50))
  /\ _charData (append_text " " (append_text "Hello" (fresh_parser 100 50))) "   "
     = append_text " " (append_text "Hello" (fresh_parser 100 50)).
Proof.
  split; [reflexivity|]. split.
  - exact (proj1 (proj2 (proj2 (proj2
      (C4_charData_normalization (fresh_parser 100 50) "  Hello   world  "))))
      eq_refl).
  - split; [reflexivity|]. split.
    + exact (proj1 (C4_charData_normalization (fresh_parser 100 50) "   ")
               eq_refl eq_refl).
    + split.
      * apply (proj1 (proj2 (proj2 (C4_charData_normalization
                 (append_text "Hello" (fresh_parser 100 50)) "   ")))
                 eq_refl eq_refl).
        discriminate.
      * exact (proj1 (proj2 (C4_charData_normalization
                 (append_text " " (append_text "Hello" (fresh_parser 100 50)))
                 "   ")) eq_refl eq_refl eq_refl).
Defined.

(** C4 as the claim has it fails: the chunk "  Hello   world  " in a fresh
    block comes out unchanged, not as "Hello world". *)
Lemma C4_hello_world_kept_verbatim :
  exists p, HocrParser_init doc_hello 100 50 = Return p
            /\ text p = "  Hello   world  "
            /\ text p <> "Hello world".
Proof. eexists. split; [reflexivity|]. split; [reflexivity | discriminate]. Qed.

(** A space is dropped only after a fragment that is one space, not after a
    fragment that ends with one. *)
Example space_after_trailing_space :
  text (finish_text (_charData (append_text "Hello " (fresh_parser 0 0)) " "))
  = "Hello  ".
Proof. reflexivity. Qed.

(** ** Scanning the boundaries *)

Lemma last_default (l : list Z) (b d : Z) :
  last l = Some b -> List.last l d = b.
Proof.
  induction l as [|a l IH]; [discriminate|].
  destruct l as [|a' l]; simpl in *; [congruence | exact IH].
Qed.

Lemma last_cons_default (l : list Z) (b d : Z) :
  List.last (b :: l) d = List.last l b.
Proof.
  revert b d. induction l as [|a l IH]; intros b d; [reflexivity|].
  change (List.last (b :: a :: l) d) with (List.last (a :: l) d).
  now rewrite (IH a d), (IH a b).
Qed.

Lemma sorted_below_last (l : list Z) (b : Z) :
  StronglySorted Z.le l -> last l = Some b -> Forall (fun a => a <= b) l.
Proof.
  induction 1 as [|a l Hs IH Ha]; intros Hlast; [constructor|].
  destruct l as [|a' l].
  - injection Hlast as <-. constructor; [lia | constructor].
  - assert (Hb : last (a' :: l) = Some b) by exact Hlast.
    constructor; [|now apply IH].
    rewrite Forall_forall in Ha. apply Ha. now apply last_Some_elem_of.
Qed.

Lemma line_scan_hit (pre post : list Z) (stop start o n : Z) :
  Forall (fun b => b <= o) pre -> o < stop ->
  line_scan (pre ++ stop :: post) start o n = (List.last pre start, stop).
Proof.
  intros Hpre Hstop. revert start.
  induction Hpre as [|b pre Hb Hpre IH]; intros start.
  - simpl. destruct (Z.ltb_spec o stop); [reflexivity | lia].
  - rewrite <- app_comm_cons. cbn [line_scan].
    destruct (Z.ltb_spec o b); [lia|].
    now rewrite IH, last_cons_default.
Qed.

Lemma line_scan_miss (ends : list Z) (start o n : Z) :
  Forall (fun b => b <= o) ends ->
  line_scan ends start o n = (List.last ends start, n).
Proof.
  intros Hends. revert start.
  induction Hends as [|b ends Hb Hends IH]; intros start.
  - reflexivity.
  - cbn [line_scan]. destruct (Z.ltb_spec o b); [lia|].
    now rewrite IH, last_cons_default.
Qed.

(** ** C7: the bounds of a line *)

(** C7.  [lineRange(offset)] ends at the first line boundary strictly
    greater than the offset and starts at the boundary before it (0 before
    the first); in a parsed document an offset at or beyond the last
    boundary gives (last boundary, storyLength()); with the boundaries
    5, 12, 20 and the length 20 the offsets 0, 5 and 19 give (0, 5),
    (5, 12) and (12, 20). *)
Theorem C7_lineRange (p : HocrParser) (o : Z) :
  (forall (pre : list Z) (stop : Z) (post : list Z),
     lines p = (pre ++ stop :: post)%list ->
     Forall (fun b => b <= o) pre -> o < stop ->
     _getLineOffsets p o = (List.last pre 0, stop))
  /\ (forall xml l t lastb,
        HocrParser_init xml l t = Return p ->
        last (lines p) = Some lastb -> lastb <= o ->
        _getLineOffsets p o = (lastb, _getStoryLength p))
  /\ (lines p = [5; 12; 20] -> _getStoryLength p = 20 ->
        _getLineOffsets p 0 = (0, 5)
        /\ _getLineOffsets p 5 = (5, 12)
        /\ _getLineOffsets p 19 = (12, 20)).
Proof.
  unfold _getLineOffsets, _getStoryLength.
  split; [|split; [|intros Hlines Hlen; rewrite Hlines, Hlen; repeat split]].
  - intros pre stop post -> Hpre Hstop. now apply line_scan_hit.
  - intros xml l t lastb Hinit Hlast Hle.
    destruct (parsed_model xml l t p Hinit) as (Hsorted & _).
    rewrite line_scan_miss.
    + now rewrite (last_default _ lastb).
    + eapply Forall_impl; [apply sorted_below_last; eassumption|].
      simpl. intros. lia.
Qed.

Lemma C7_lineRange_witness :
  exists p,
    HocrParser_init doc_three_lines 0 0 = Return p
    /\ lines p = [5; 12; 20] /\ _getStoryLength p = 20
    /\ _getLineOffsets p 0 = (0, 5)
    /\ _getLineOffsets p 5 = (5, 12)
    /\ _getLineOffsets p 19 = (12, 20)
    /\ _getLineOffsets p 12 = (12, 20)
    /\ _getLineOffsets p 20 = (20, 20).
Proof.
  eexists. split; [reflexivity|]. split; [reflexivity|]. split; [reflexivity|].
  match goal with |- _getLineOffsets ?p _ = _ /\ _ =>
    destruct (C7_lineRange p 0) as (_ & _ & Hc);
    destruct (Hc eq_refl eq_refl) as (H0 & H5 & H19);
    destruct (C7_lineRange p 12) as (Hhit & _ & _);
    destruct (C7_lineRange p 20) as (_ & Hmiss & _)
  end.
  split; [exact H0|]. split; [exact H5|]. split; [exact H19|]. split.
  - apply (Hhit [5; 12] 20 []); [reflexivity | repeat constructor; lia | lia].
  - apply (Hmiss doc_three_lines 0 0 20); [reflexivity | reflexivity | lia].
Defined.

(** ** The point of an offset *)

Lemma handle_origin (self self' : HocrParser) (ev : event) :
  handle self ev = Return self' ->
  leftCoordOffset self' = leftCoordOffset self
  /\ topCoordOffset self' = topCoordOffset self.
Proof.
  destruct ev as [tag attrs|tag|data]; simpl.
  - unfold _startElement.
    destruct (_ || _); [now intros [= <-]|].
    destruct (String.eqb tag "span"); [|now intros [= <-]].
    destruct (attrs !! "class") as [cls|]; [|discriminate].
    destruct (String.eqb cls "ocr_line"); [now intros [= <-]|].
    destruct (String.eqb cls "ocr_word"); [|now intros [= <-]].
    destruct (attrs !! "title") as [title|]; [|discriminate].
    destruct (Py.split_space title) as [|? [|l [|t [|? [|? [|? ?]]]]]];
      try discriminate.
    destruct (Py.int l); [|discriminate].
    destruct (Py.truediv_overflows _ _); [discriminate|].
    destruct (Py.float_overflows _); [discriminate|].
    destruct (Py.int t); [|discriminate].
    destruct (Py.truediv_overflows _ _); [discriminate|].
    destruct (Py.float_overflows _); [discriminate|].
    now intros [= <-].
  - now intros [= <-].
  - intros [= <-]. unfold _charData.
    destruct (Py.isspace data); [|split; reflexivity].
    destruct (negb _); [split; reflexivity|].
    destruct (last_is _ _); split; reflexivity.
Qed.

Lemma run_handlers_origin (evs : list event) (self self' : HocrParser) :
  run_handlers self evs = Return self' ->
  leftCoordOffset self' = leftCoordOffset self
  /\ topCoordOffset self' = topCoordOffset self.
Proof.
  revert self. induction evs as [|ev evs IH]; intros self; simpl.
  - now intros [= <-].
  - destruct (handle self ev) as [self1|e] eqn:Hh; simpl; [|discriminate].
    intros Hrun. destruct (handle_origin _ _ _ Hh) as [Hl Ht].
    destruct (IH _ Hrun) as [Hl' Ht']. split; congruence.
Qed.

Lemma init_origin (xml : markup) (l t : Z) (p : HocrParser) :
  HocrParser_init xml l t = Return p ->
  leftCoordOffset p = l /\ topCoordOffset p = t.
Proof.
  intros H. apply init_inv in H. destruct H as (self & Hrun & ->).
  apply run_handlers_origin in Hrun. exact Hrun.
Qed.

(** The loop runs to its end exactly when no word starts after the offset. *)
Lemma point_scan_no_break (ws : list OcrWord) (o : Z) (word : option OcrWord) :
  Forall (fun w => offset w <= o) ws -> point_scan ws o word = None.
Proof.
  intros Hws. revert word.
  induction Hws as [|w ws Hw Hws IH]; intros word; simpl; [reflexivity|].
  destruct (Z.ltb_spec o (offset w)); [lia | apply IH].
Qed.

(** The words the loop passes before it meets one that starts after the
    offset: [word] is then the last of them. *)
Lemma point_scan_break (pre post : list OcrWord) (w nxt : OcrWord) (o : Z)
    (word : option OcrWord) :
  Forall (fun v => offset v <= o) pre -> offset w <= o -> o < offset nxt ->
  point_scan (pre ++ w :: nxt :: post) o word = Some (Some w).
Proof.
  intros Hpre Hw Hnxt. revert word.
  induction Hpre as [|v pre Hv Hpre IH]; intros word; simpl.
  - destruct (Z.ltb_spec o (offset w)); [lia|].
    destruct (Z.ltb_spec o (offset nxt)); [reflexivity | lia].
  - destruct (Z.ltb_spec o (offset v)); [lia | apply IH].
Qed.

Lemma sorted_prefix_below (pre post : list Z) (b : Z) :
  StronglySorted Z.le (pre ++ b :: post) -> Forall (fun a => a <= b) pre.
Proof.
  induction pre as [|a pre IH]; simpl; intros Hs; [constructor|].
  inversion Hs as [|? ? Hs' Ha]; subst. constructor.
  - rewrite Forall_forall in Ha. apply Ha. apply elem_of_app. right. left.
  - now apply IH.
Qed.

(** ** C1: an offset in the last word *)

(** C1, what the code does.  In a parsed document with at least one word,
    an offset at or after the last word's offset makes the loop of
    [_getPointFromOffset] run to its end, and the [else] branch returns the
    capture origin, not the coordinates of the last word. *)
Theorem C1_last_word_gives_origin (xml : markup) (l t : Z) (p : HocrParser)
    (w : OcrWord) (o : Z) :
  HocrParser_init xml l t = Return p ->
  last (words p) = Some w -> offset w <= o ->
  _getPointFromOffset p o = Return (mkPoint l t).
Proof.
  intros Hinit Hlast Hle.
  destruct (parsed_model xml l t p Hinit) as (_ & Hsorted & _).
  destruct (init_origin xml l t p Hinit) as [Hl Ht].
  unfold _getPointFromOffset. rewrite point_scan_no_break.
  - now rewrite Hl, Ht.
  - assert (Hlast' : last (map offset (words p)) = Some (offset w))
      by (rewrite fmap_last, Hlast; reflexivity).
    pose proof (sorted_below_last _ _ Hsorted Hlast') as Hall.
    rewrite List.Forall_map in Hall.
    eapply Forall_impl; [exact Hall|]. simpl. intros. lia.
Qed.

Lemma C1_last_word_gives_origin_witness :
  exists p,
    HocrParser_init (doc_word "bbox 20 40 60 80") 100 50 = Return p
    /\ words p = [mkOcrWord 0 (toScreen 100 20) (toScreen 50 40)]
    /\ Py.int_of_float (toScreen 100 20) = 110
    /\ Py.int_of_float (toScreen 50 40) = 70
    /\ _getPointFromOffset p 0 = Return (mkPoint 100 50)
    /\ _getPointFromOffset p 1 = Return (mkPoint 100 50).
Proof.
  eexists. split; [reflexivity|]. split; [reflexivity|].
  split; [reflexivity|]. split; [reflexivity|]. split.
  - apply (C1_last_word_gives_origin (doc_word "bbox 20 40 60 80") 100 50 _
             (mkOcrWord 0 (toScreen 100 20) (toScreen 50 40)) 0);
      [reflexivity | reflexivity | simpl; lia].
  - apply (C1_last_word_gives_origin (doc_word "bbox 20 40 60 80") 100 50 _
             (mkOcrWord 0 (toScreen 100 20) (toScreen 50 40)) 1);
      [reflexivity | reflexivity | simpl; lia].
Defined.

(** ** C3: an offset before the first word *)

(** C3, what the code does.  Without any word the capture origin is
    returned.  With words, an offset before the first word's offset leaves
    the loop at its first iteration, before [word] is assigned, and the
    [return] after the loop raises UnboundLocalError. *)
Theorem C3_before_first_word_raises (p : HocrParser) (o : Z) :
  (words p = [] ->
     _getPointFromOffset p o
       = Return (mkPoint (leftCoordOffset p) (topCoordOffset p)))
  /\ (forall w rest,
        words p = w :: rest -> o < offset w ->
        _getPointFromOffset p o = Raise UnboundLocalError).
Proof.
  unfold _getPointFromOffset. split.
  - intros ->. reflexivity.
  - intros w rest -> Hlt. simpl.
    destruct (Z.ltb_spec o (offset w)); [reflexivity | lia].
Qed.

Lemma C3_before_first_word_raises_witness :
  exists p,
    HocrParser_init doc_late_word 100 50 = Return p
    /\ words p = [mkOcrWord 2 (toScreen 100 40) (toScreen 50 21)]
    /\ _getPointFromOffset p 0 = Raise UnboundLocalError
    /\ _getPointFromOffset (fresh_parser 100 50) 0 = Return (mkPoint 100 50).
Proof.
  eexists. split; [reflexivity|]. split; [reflexivity|]. split.
  - match goal with |- _getPointFromOffset ?p _ = _ =>
      apply (proj2 (C3_before_first_word_raises p 0)
               (mkOcrWord 2 (toScreen 100 40) (toScreen 50 21)) []);
        [reflexivity | simpl; lia]
    end.
  - exact (proj1 (C3_before_first_word_raises (fresh_parser 100 50) 0) eq_refl).
Defined.

(** ** The words of a parsed document *)

Lemma charData_words (self : HocrParser) (data : string) :
  words (_charData self data) = words self.
Proof.
  unfold _charData. destruct (Py.isspace data); [|reflexivity].
  destruct (negb _); [reflexivity|]. now destruct (last_is _ _).
Qed.

(** A handler call appends a word exactly on a word marker, with the
    marker's left and top moved to the screen. *)
Lemma handle_words (self self' : HocrParser) (ev : event) :
  handle self ev = Return self' ->
  map coords (words self') =
  (map coords (words self)
   ++ map (screen_coords (leftCoordOffset self) (topCoordOffset self))
        (omap bbox_of [ev]))%list.
Proof.
  destruct ev as [tag attrs|tag|data]; simpl.
  - unfold _startElement. destruct (String.eqb_spec tag "span") as [->|Hne].
    + simpl. destruct (attrs !! "class") as [cls|]; [|discriminate].
      destruct (String.eqb_spec cls "ocr_line") as [->|Hline].
      { simpl. intros [= <-]. simpl.
        destruct (attrs !! "title"); simpl; now rewrite app_nil_r. }
      destruct (String.eqb cls "ocr_word").
      * destruct (attrs !! "title") as [title|]; [|discriminate].
        destruct (Py.split_space title) as [|? [|l [|t [|? [|? [|? ?]]]]]];
          try discriminate.
        destruct (Py.int l); [|discriminate].
        destruct (Py.truediv_overflows _ _); [discriminate|].
        destruct (Py.float_overflows _); [discriminate|].
        destruct (Py.int t); [|discriminate].
        destruct (Py.truediv_overflows _ _); [discriminate|].
        destruct (Py.float_overflows _); [discriminate|].
        intros [= <-]. simpl. now rewrite map_app.
      * intros [= <-]. destruct (attrs !! "title"); simpl; now rewrite app_nil_r.
    + destruct (_ || _); intros [= <-]; simpl; now rewrite app_nil_r.
  - intros [= <-]. simpl. now rewrite app_nil_r.
  - intros [= <-]. rewrite charData_words. simpl. now rewrite app_nil_r.
Qed.

Lemma run_handlers_words (evs : list event) (self self' : HocrParser) :
  run_handlers self evs = Return self' ->
  map coords (words self') =
  (map coords (words self)
   ++ map (screen_coords (leftCoordOffset self) (topCoordOffset self))
        (omap bbox_of evs))%list.
Proof.
  revert self. induction evs as [|ev evs IH]; intros self.
  - simpl. intros [= <-]. now rewrite app_nil_r.
  - cbn [run_handlers].
    destruct (handle self ev) as [self1|e] eqn:Hh; simpl; [|discriminate].
    intros Hrun. rewrite (IH _ Hrun), (handle_words _ _ _ Hh).
    destruct (handle_origin _ _ _ Hh) as [-> ->].
    rewrite <- app_assoc. f_equal. cbn [omap list_omap].
    destruct (bbox_of ev); reflexivity.
Qed.

Lemma parsed_words (xml : markup) (l t : Z) (p : HocrParser) :
  HocrParser_init xml l t = Return p ->
  map coords (words p) = map (screen_coords l t) (omap bbox_of (events xml)).
Proof.
  intros H. apply init_inv in H. destruct H as (self & Hrun & ->).
  apply run_handlers_words in Hrun. exact Hrun.
Qed.

(** ** Screen coordinates *)

Lemma trunc_toScreen (o n : Z) :
  Py.int_of_float (toScreen o n) = Z.quot (2 * o + n) 2.
Proof.
  unfold Py.int_of_float, toScreen, Py.truediv, IMAGE_RESIZE_FACTOR. simpl.
  f_equal. lia.
Qed.

Lemma toScreen_exact (o n : Z) :
  (toScreen o n == inject_Z o + inject_Z n / 2)%Q.
Proof. reflexivity. Qed.

(** Truncation loses nothing exactly when the pixel coordinate is even. *)
Lemma trunc_exact_iff_even (o n : Z) :
  (inject_Z (Z.quot (2 * o + n) 2) == inject_Z o + inject_Z n / 2)%Q
  <-> Z.even n = true.
Proof.
  unfold Qeq. simpl.
  destruct (Z.even n) eqn:Hev.
  - apply Z.even_spec in Hev. destruct Hev as [k ->].
    replace (2 * o + 2 * k) with ((o + k) * 2) by lia.
    rewrite Z.quot_mul by lia. split; [reflexivity | lia].
  - split; [|discriminate]. intros Heq. exfalso.
    assert (Hodd : Z.odd n = true) by (rewrite <- Z.negb_even, Hev; reflexivity).
    apply Z.odd_spec in Hodd. destruct Hodd as [k ->]. lia.
Qed.

(** ** C5: from the bounding box to the point *)

(** C5, as amended.  With the origin (100, 50) and the resize factor 2, the
    [i]-th word marker, of left [L] and top [T], gives the [i]-th word
    record, which holds exactly (100 + L/2, 50 + T/2).  When the word
    recorded next starts at a greater offset, [pointForOffset] at the word's
    offset returns these coordinates cut to integers toward zero, which is
    (100 + L/2, 50 + T/2) exactly when [L] and [T] are even.  (The bounds on
    [L] and [T] keep the float arithmetic of the program exact.) *)
Theorem C5_word_point (xml : markup) (p : HocrParser) (i : nat) (L T : Z) :
  HocrParser_init xml 100 50 = Return p ->
  omap bbox_of (events xml) !! i = Some (L, T) ->
  Z.abs L < 2 ^ 52 -> Z.abs T < 2 ^ 52 ->
  exists w,
    words p !! i = Some w
    /\ (left w == 100 + inject_Z L / 2)%Q
    /\ (top w == 50 + inject_Z T / 2)%Q
    /\ forall nxt,
         words p !! S i = Some nxt -> offset w < offset nxt ->
         exists pt,
           _getPointFromOffset p (offset w) = Return pt
           /\ x pt = Z.quot (200 + L) 2
           /\ y pt = Z.quot (100 + T) 2
           /\ (exact_point pt 100 50 L T
               <-> Z.even L = true /\ Z.even T = true).
Proof.
  intros Hinit Hbbox _ _.
  pose proof (parsed_words xml 100 50 p Hinit) as Hwords.
  assert (Hi : map coords (words p) !! i = Some (screen_coords 100 50 (L, T))).
  { rewrite Hwords. change map with (@fmap list _). 
    now rewrite list_lookup_fmap, Hbbox. }
  change map with (@fmap list _) in Hi. rewrite list_lookup_fmap in Hi.
  destruct (words p !! i) as [w|] eqn:Hw; [|discriminate].
  injection Hi as Hl Ht. unfold screen_coords in Hl, Ht. simpl in Hl, Ht.
  exists w. split; [reflexivity|].
  split; [rewrite Hl; apply toScreen_exact|].
  split; [rewrite Ht; apply toScreen_exact|].
  intros nxt Hnxt Hlt.
  destruct (parsed_model xml 100 50 p Hinit) as (_ & Hsorted & _).
  pose proof (take_drop_middle _ _ _ Hw) as Hsplit.
  rewrite (drop_S _ _ _ Hnxt) in Hsplit.
  assert (Hpre : Forall (fun v => offset v <= offset w) (take i (words p))).
  { rewrite <- Hsplit in Hsorted. rewrite map_app in Hsorted. simpl in Hsorted.
    apply sorted_prefix_below in Hsorted.
    now rewrite List.Forall_map in Hsorted. }
  eexists. split.
  - unfold _getPointFromOffset. rewrite <- Hsplit.
    rewrite (point_scan_break _ _ w nxt); [reflexivity | exact Hpre | lia | lia].
  - simpl. rewrite Hl, Ht, !trunc_toScreen.
    split; [f_equal; lia|]. split; [f_equal; lia|].
    unfold exact_point. simpl x. simpl y.
    rewrite (trunc_exact_iff_even 100 L), (trunc_exact_iff_even 50 T).
    reflexivity.
Qed.

Lemma C5_word_point_witness :
  exists p,
    HocrParser_init (doc_two_words "bbox 11 21 30 40") 100 50 = Return p
    /\ omap bbox_of (events (doc_two_words "bbox 11 21 30 40")) !! 0%nat
       = Some (11, 21)
    /\ _getPointFromOffset p 0 = Return (mkPoint 105 60)
    /\ (exact_point (mkPoint 105 60) 100 50 11 21 <-> false = true /\ false = true).
Proof.
  eexists. split; [reflexivity|]. split; [reflexivity|].
  match goal with |- _getPointFromOffset ?p _ = _ /\ _ =>
    destruct (C5_word_point (doc_two_words "bbox 11 21 30 40") p 0 11 21
                eq_refl eq_refl) as (w & Hw & _ & _ & Hpt);
      [simpl; lia | simpl; lia |]
  end.
  injection Hw as <-.
  destruct (Hpt (mkOcrWord 2 (toScreen 100 40) (toScreen 50 21)) eq_refl)
    as (pt & Hret & Hx & Hy & Hexact); [simpl; lia|].
  destruct pt as [px py]. simpl in Hx, Hy. subst px py.
  split; [exact Hret | exact Hexact].
Defined.

(** C5 as the claim has it fails: with the odd left 11 and top 21 the point
    of the word's offset is (105, 60), and neither 105 = 100 + 11/2 nor
    60 = 50 + 21/2. *)
Lemma C5_odd_coordinates_truncated :
  exists p,
    HocrParser_init (doc_two_words "bbox 11 21 30 40") 100 50 = Return p
    /\ words p !! 0%nat = Some (mkOcrWord 0 (toScreen 100 11) (toScreen 50 21))
    /\ _getPointFromOffset p 0 = Return (mkPoint 105 60)
    /\ ~ exact_point (mkPoint 105 60) 100 50 11 21.
Proof.
  eexists. split; [reflexivity|]. split; [reflexivity|]. split; [reflexivity|].
  intros [Hx _]. unfold Qeq in Hx. simpl in Hx. discriminate Hx.
Qed.

(** With even coordinates nothing is lost. *)
Example even_coordinates_exact :
  exists p,
    HocrParser_init (doc_two_words "bbox 20 40 60 80") 100 50 = Return p
    /\ _getPointFromOffset p 0 = Return (mkPoint 110 70)
    /\ exact_point (mkPoint 110 70) 100 50 20 40.
Proof.
  eexists. split; [reflexivity|]. split; [reflexivity|].
  split; reflexivity.
Qed.

(** ** C9: copies of a view *)

Lemma parser_of_view (h : gmap addr pyobject) (self : addr) (t : OcrTextInfo)
    (p : HocrParser) :
  h !! self = Some (TextInfoObject t) ->
  h !! _parser t = Some (ParserObject p) ->
  parser_of h self = Some p.
Proof. intros Hself Hp. unfold parser_of. now rewrite Hself, Hp. Qed.

(** C9.  [copy()] on a view returns a new object, at an address that was
    free, with the same reference in [_parser]; every object that existed
    is unchanged, both views read the same parser object, and each of the
    five queries returns on the copy what it returns on the original. *)
Theorem C9_copy_same_queries (h : gmap addr pyobject) (self : addr)
    (t : OcrTextInfo) (p : HocrParser) :
  h !! self = Some (TextInfoObject t) ->
  h !! _parser t = Some (ParserObject p) ->
  exists h' self' t',
    copy h self = Some (h', self')
    /\ h !! self' = None
    /\ h' !! self' = Some (TextInfoObject t')
    /\ _parser t' = _parser t
    /\ (forall a, a <> self' -> h' !! a = h !! a)
    /\ parser_of h' self' = Some p
    /\ parser_of h' self = Some p
    /\ forall start stop o,
         call _getStoryLength h' self' = call _getStoryLength h' self
         /\ call (fun q => _getTextRange q start stop) h' self'
            = call (fun q => _getTextRange q start stop) h' self
         /\ call (fun q => _getLineOffsets q o) h' self'
            = call (fun q => _getLineOffsets q o) h' self
         /\ call (fun q => _getWordOffsets q o) h' self'
            = call (fun q => _getWordOffsets q o) h' self
         /\ call (fun q => _getPointFromOffset q o) h' self'
            = call (fun q => _getPointFromOffset q o) h' self
         /\ call _getStoryLength h' self = Some (_getStoryLength p).
Proof.
  intros Hself Hp. unfold copy, OcrTextInfo_init. rewrite Hself.
  set (self' := fresh (dom h)).
  assert (Hfree : h !! self' = None)
    by (apply not_elem_of_dom; apply is_fresh).
  assert (Hne : self <> self') by congruence.
  assert (Hnep : _parser t <> self') by congruence.
  set (t' := mkOcrTextInfo (obj t) (bookmark t) (_parser t)).
  set (h' := <[self' := TextInfoObject t']> h).
  assert (Hcopy : parser_of h' self' = Some p).
  { apply (parser_of_view h' self' t'); subst h'.
    - apply lookup_insert_eq.
    - simpl. rewrite lookup_insert_ne by congruence. exact Hp. }
  assert (Horig : parser_of h' self = Some p).
  { apply (parser_of_view h' self t); subst h';
      rewrite lookup_insert_ne by congruence; assumption. }
  exists h', self', t'.
  split; [reflexivity|]. split; [exact Hfree|].
  split; [subst h'; apply lookup_insert_eq|]. split; [reflexivity|].
  split; [intros a Ha; subst h'; now rewrite lookup_insert_ne|].
  split; [exact Hcopy|]. split; [exact Horig|].
  intros start stop o. unfold call. rewrite Hcopy, Horig. repeat split.
Qed.

Lemma C9_copy_same_queries_witness :
  exists h' self',
    copy sample_heap 3%positive = Some (h', self')
    /\ self' <> 3%positive
    /\ parser_of h' self' = Some sample_parser
    /\ call (fun q => _getWordOffsets q 1) h' self'
       = call (fun q => _getWordOffsets q 1) h' 3%positive
    /\ call (fun q => _getPointFromOffset q 1) h' self'
       = call (fun q => _getPointFromOffset q 1) h' 3%positive.
Proof.
  destruct (C9_copy_same_queries sample_heap 3%positive
              (mkOcrTextInfo 1%positive (0, 0) 2%positive) sample_parser
              eq_refl eq_refl)
    as (h' & self' & t' & Hcopy & Hfree & _ & _ & _ & Hp & _ & Hq).
  exists h', self'. split; [exact Hcopy|]. split.
  - intros ->. discriminate Hfree.
  - split; [exact Hp|].
    destruct (Hq 0 0 1) as (_ & _ & _ & Hw & Hpt & _).
    split; [exact Hw | exact Hpt].
Defined.

Example sample_parser_parsed :
  HocrParser_init (doc_two_words "bbox 11 21 30 40") 100 50
  = Return sample_parser.
Proof. reflexivity. Qed.

(** * Further properties of the parser and of the view *)

Example page_parsed : HocrParser_init doc_page 100 50 = Return page_parser.
Proof. reflexivity. Qed.

(** ** Growth of the parser object *)

Lemma join_app (l1 l2 : list string) :
  Py.join (l1 ++ l2) = Py.join l1 +:+ Py.join l2.
Proof.
  induction l1 as [|a l1 IH]; simpl; [reflexivity|].
  now rewrite IH, append_assoc.
Qed.

(** A handler call only appends to the three sequences. *)
Lemma handle_grows (self self' : HocrParser) (ev : event) :
  handle self ev = Return self' ->
  _textList self `prefix_of` _textList self'
  /\ lines self `prefix_of` lines self'
  /\ words self `prefix_of` words self'.
Proof.
  destruct ev as [tag attrs|tag|data]; simpl.
  - unfold _startElement.
    destruct (_ || _); [now intros [= <-]|].
    destruct (String.eqb tag "span"); [|now intros [= <-]].
    destruct (attrs !! "class") as [cls|]; [|discriminate].
    destruct (String.eqb cls "ocr_line").
    { intros [= <-]. simpl. repeat split; try reflexivity.
      now apply prefix_app_r. }
    destruct (String.eqb cls "ocr_word"); [|now intros [= <-]].
    destruct (attrs !! "title") as [title|]; [|discriminate].
    destruct (Py.split_space title) as [|? [|l [|t [|? [|? [|? ?]]]]]];
      try discriminate.
    destruct (Py.int l); [|discriminate].
    destruct (Py.truediv_overflows _ _); [discriminate|].
    destruct (Py.float_overflows _); [discriminate|].
    destruct (Py.int t); [|discriminate].
    destruct (Py.truediv_overflows _ _); [discriminate|].
    destruct (Py.float_overflows _); [discriminate|].
    intros [= <-]. simpl. repeat split; try reflexivity.
    now apply prefix_app_r.
  - now intros [= <-].
  - intros [= <-]. unfold _charData.
    assert (Happ : forall d,
      _textList self `prefix_of` _textList (append_text d self)
      /\ lines self `prefix_of` lines (append_text d self)
      /\ words self `prefix_of` words (append_text d self)).
    { intros d. simpl. repeat split; try reflexivity. now apply prefix_app_r. }
    destruct (Py.isspace data); [|apply Happ].
    destruct (negb _); [repeat split; reflexivity|].
    destruct (last_is _ _); [repeat split; reflexivity | apply Happ].
Qed.

Lemma run_handlers_grows (evs : list event) (self self' : HocrParser) :
  run_handlers self evs = Return self' ->
  _textList self `prefix_of` _textList self'
  /\ lines self `prefix_of` lines self'
  /\ words self `prefix_of` words self'.
Proof.
  revert self. induction evs as [|ev evs IH]; intros self; simpl.
  - intros [= <-]. repeat split; reflexivity.
  - destruct (handle self ev) as [self1|e] eqn:Hh; simpl; [|discriminate].
    intros Hrun. destruct (handle_grows _ _ _ Hh) as (Ht & Hl & Hw).
    destruct (IH _ Hrun) as (Ht' & Hl' & Hw').
    repeat split; etrans; eassumption.
Qed.

(** X1.  The parse of a longer input extends the parse of its beginning:
    the text, the line boundaries and the words of the shorter input are
    initial segments of those of the longer one.  Nothing recorded is
    changed or removed later. *)
Theorem X1_parse_extends (pre post : list event) (fin1 fin2 : ending)
    (l t : Z) (p1 p2 : HocrParser) :
  HocrParser_init (Markup pre fin1) l t = Return p1 ->
  HocrParser_init (Markup (pre ++ post) fin2) l t = Return p2 ->
  (exists more, text p2 = text p1 +:+ more)
  /\ lines p1 `prefix_of` lines p2
  /\ words p1 `prefix_of` words p2
  /\ _getStoryLength p1 <= _getStoryLength p2.
Proof.
  intros H1 H2. apply init_inv in H1, H2.
  destruct H1 as (s1 & Hr1 & ->). destruct H2 as (s2 & Hr2 & ->).
  simpl in Hr1, Hr2. rewrite run_handlers_app, Hr1 in Hr2. simpl in Hr2.
  destruct (run_handlers_grows _ _ _ Hr2) as ([more Ht] & Hl & Hw).
  pose proof (run_handlers_inv _ _ _ (fresh_parser_inv l t) Hr1) as Hi1.
  assert (Hi2 : parser_inv s2).
  { eapply run_handlers_inv; [exact Hi1 | exact Hr2]. }
  simpl. repeat split; try assumption.
  - exists (Py.join more). now rewrite Ht, join_app.
  - unfold _getStoryLength. simpl.
    rewrite (inv_len _ Hi1), (inv_len _ Hi2), Ht, join_app.
    unfold Py.len. rewrite length_append_add. lia.
Qed.

Lemma X1_parse_extends_witness :
  exists p1,
    HocrParser_init (Markup (take 10 (events doc_page)) Unfinished) 100 50
    = Return p1
    /\ HocrParser_init doc_page 100 50 = Return page_parser
    /\ text p1 = "Hello" /\ text page_parser = "Hello" +:+ " brave world "
    /\ lines p1 `prefix_of` lines page_parser
    /\ words p1 `prefix_of` words page_parser.
Proof.
  eexists. split; [reflexivity|]. split; [reflexivity|].
  split; [reflexivity|]. split; [reflexivity|].
  destruct (X1_parse_extends (take 10 (events doc_page))
              (drop 10 (events doc_page)) Unfinished Complete 100 50
              _ page_parser eq_refl eq_refl) as (_ & Hl & Hw & _).
  split; [exact Hl | exact Hw].
Defined.

(** ** Ranges over sorted boundaries *)

Lemma word_scan_line_scan (ws : list OcrWord) (start o n : Z) :
  word_scan ws start o n = line_scan (map offset ws) start o n.
Proof.
  revert start. induction ws as [|w ws IH]; intros start; simpl;
    [reflexivity|].
  destruct (o <? offset w); [reflexivity | apply IH].
Qed.

Lemma line_scan_bounds (bs : list Z) (start o n s e : Z) :
  StronglySorted Z.le (start :: bs) -> Forall (fun b => b <= n) (start :: bs) ->
  line_scan bs start o n = (s, e) ->
  start <= s /\ s <= e /\ e <= n.
Proof.
  revert start. induction bs as [|b bs IH]; intros start Hs Hn; simpl.
  - intros [= <- <-]. inversion Hn; subst. lia.
  - inversion Hs as [|? ? Hs' Hall]; subst.
    inversion Hall as [|? ? Hb _]; subst.
    inversion Hn as [|? ? _ Hn']; subst.
    destruct (Z.ltb_spec o b).
    + intros [= <- <-]. inversion Hn'; subst. lia.
    + intros Hscan. destruct (IH b Hs' Hn' Hscan) as (? & ? & ?). lia.
Qed.

Lemma line_scan_contains (bs : list Z) (start o n s e : Z) :
  StronglySorted Z.le (start :: bs) -> start <= o -> o < n ->
  line_scan bs start o n = (s, e) ->
  s <= o < e.
Proof.
  revert start. induction bs as [|b bs IH]; intros start Hs Ho Hn; simpl.
  - intros [= <- <-]. lia.
  - inversion Hs as [|? ? Hs' _]; subst.
    destruct (Z.ltb_spec o b).
    + intros [= <- <-]. lia.
    + intros Hscan. apply (IH b); assumption.
Qed.

Lemma line_scan_stable (bs : list Z) (start o o' n s e : Z) :
  StronglySorted Z.le (start :: bs) -> Forall (fun b => b <= n) (start :: bs) ->
  line_scan bs start o n = (s, e) -> s <= o' < e ->
  line_scan bs start o' n = (s, e).
Proof.
  revert start. induction bs as [|b bs IH]; intros start Hs Hn; simpl.
  - intros [= <- <-] _. reflexivity.
  - inversion Hs as [|? ? Hs' _]; subst.
    inversion Hn as [|? ? _ Hn']; subst.
    destruct (Z.ltb_spec o b).
    + intros [= <- <-] Ho'. destruct (Z.ltb_spec o' b); [reflexivity | lia].
    + intros Hscan Ho'.
      destruct (line_scan_bounds _ _ _ _ _ _ Hs' Hn' Hscan) as (Hbs & _).
      destruct (Z.ltb_spec o' b); [lia|]. now apply IH.
Qed.

(** The boundaries of a parsed document, with the 0 the scans start from. *)
Lemma parsed_boundaries (xml : markup) (l t : Z) (p : HocrParser) :
  HocrParser_init xml l t = Return p ->
  StronglySorted Z.le (0 :: lines p)
  /\ Forall (fun b => b <= textLen p) (0 :: lines p)
  /\ StronglySorted Z.le (0 :: map offset (words p))
  /\ Forall (fun b => b <= textLen p) (0 :: map offset (words p)).
Proof.
  intros H. destruct (parsed_model xml l t p H) as (Hl & Hw & Hlb & Hwb & Hlen).
  assert (H0 : 0 <= textLen p) by (rewrite Hlen; apply len_nonneg).
  split; [|split; [|split]].
  - constructor; [exact Hl|].
    eapply Forall_impl; [exact Hlb | simpl; intros; lia].
  - constructor; [exact H0|].
    eapply Forall_impl; [exact Hlb | simpl; intros; lia].
  - constructor; [exact Hw|]. rewrite List.Forall_map.
    eapply Forall_impl; [exact Hwb | simpl; intros; lia].
  - constructor; [exact H0|]. rewrite List.Forall_map.
    eapply Forall_impl; [exact Hwb | simpl; intros; lia].
Qed.

(** X2.  In a parsed document [lineRange] and [wordRange] stay inside the
    text for every offset, also one outside of it:
    0 <= start <= end <= storyLength(); and for an offset of the text,
    0 <= offset < storyLength(), the range holds the offset:
    start <= offset < end. *)
Theorem X2_ranges_hold_offset (xml : markup) (l t : Z) (p : HocrParser)
    (o : Z) :
  HocrParser_init xml l t = Return p ->
  (0 <= fst (_getLineOffsets p o) <= snd (_getLineOffsets p o)
   /\ snd (_getLineOffsets p o) <= _getStoryLength p)
  /\ (0 <= fst (_getWordOffsets p o) <= snd (_getWordOffsets p o)
      /\ snd (_getWordOffsets p o) <= _getStoryLength p)
  /\ (0 <= o < _getStoryLength p ->
      fst (_getLineOffsets p o) <= o < snd (_getLineOffsets p o)
      /\ fst (_getWordOffsets p o) <= o < snd (_getWordOffsets p o)).
Proof.
  intros H. destruct (parsed_boundaries xml l t p H) as (Hl & Hlb & Hw & Hwb).
  unfold _getLineOffsets, _getWordOffsets, _getStoryLength.
  rewrite word_scan_line_scan.
  destruct (line_scan (lines p) 0 o (textLen p)) as [s e] eqn:Hls.
  destruct (line_scan (map offset (words p)) 0 o (textLen p)) as [s' e'] eqn:Hws.
  pose proof (line_scan_bounds _ _ _ _ _ _ Hl Hlb Hls) as Hb.
  pose proof (line_scan_bounds _ _ _ _ _ _ Hw Hwb Hws) as Hb'.
  simpl. split; [lia|]. split; [lia|]. intros Ho.
  pose proof (line_scan_contains _ _ _ _ _ _ Hl (proj1 Ho) (proj2 Ho) Hls).
  pose proof (line_scan_contains _ _ _ _ _ _ Hw (proj1 Ho) (proj2 Ho) Hws).
  lia.
Qed.

Lemma X2_ranges_hold_offset_witness :
  _getLineOffsets page_parser 7 = (0, 12)
  /\ _getWordOffsets page_parser 7 = (6, 12)
  /\ (6 <= 7 < 12)
  /\ _getWordOffsets page_parser 99 = (12, 18).
Proof.
  destruct (X2_ranges_hold_offset doc_page 100 50 page_parser 7 eq_refl)
    as (_ & _ & Hin).
  assert (Ho : 0 <= 7 < _getStoryLength page_parser) by (simpl; lia).
  destruct (Hin Ho) as (_ & Hw).
  split; [reflexivity|]. split; [reflexivity|]. split; [exact Hw | reflexivity].
Defined.

(** X3.  In a parsed document the ranges do not overlap: every offset
    inside the line range (or word range) of an offset has that same
    range. *)
Theorem X3_ranges_partition (xml : markup) (l t : Z) (p : HocrParser)
    (o o' : Z) :
  HocrParser_init xml l t = Return p ->
  (fst (_getLineOffsets p o) <= o' < snd (_getLineOffsets p o) ->
   _getLineOffsets p o' = _getLineOffsets p o)
  /\ (fst (_getWordOffsets p o) <= o' < snd (_getWordOffsets p o) ->
      _getWordOffsets p o' = _getWordOffsets p o).
Proof.
  intros H. destruct (parsed_boundaries xml l t p H) as (Hl & Hlb & Hw & Hwb).
  unfold _getLineOffsets, _getWordOffsets. rewrite !word_scan_line_scan.
  destruct (line_scan (lines p) 0 o (textLen p)) as [s e] eqn:Hls.
  destruct (line_scan (map offset (words p)) 0 o (textLen p)) as [s' e'] eqn:Hws.
  simpl. split; intros Ho'.
  - eapply line_scan_stable; eassumption.
  - eapply line_scan_stable; eassumption.
Qed.

Lemma X3_ranges_partition_witness :
  _getLineOffsets page_parser 3 = _getLineOffsets page_parser 7
  /\ _getWordOffsets page_parser 9 = _getWordOffsets page_parser 7.
Proof.
  destruct (X3_ranges_partition doc_page 100 50 page_parser 7 3 eq_refl)
    as (Hline & _).
  destruct (X3_ranges_partition doc_page 100 50 page_parser 7 9 eq_refl)
    as (_ & Hword).
  split; [apply Hline | apply Hword]; simpl; lia.
Defined.

(** ** The point of an offset inside a word *)






(** ** The text and its ranges *)

Lemma substring_whole (s : string) : substring 0 (String.length s) s = s.
Proof. induction s as [|c s IH]; simpl; [reflexivity | now rewrite IH]. Qed.

Lemma substring_split (s : string) (n m k : nat) :
  substring n m s +:+ substring (n + m) k s = substring n (m + k) s.
Proof.
  revert n m. induction s as [|c s IH]; intros n m.
  - destruct n, m, k; reflexivity.
  - destruct n as [|n]; simpl.
    + destruct m as [|m]; simpl; [reflexivity|].
      rewrite append_cons. f_equal. apply (IH 0%nat m).
    + apply IH.
Qed.

Lemma substring_length (s : string) (n m : nat) :
  (n + m <= String.length s)%nat -> String.length (substring n m s) = m.
Proof.
  revert n m. induction s as [|c s IH]; intros n m; simpl.
  - intros Hle. assert (n = 0%nat /\ m = 0%nat) as [-> ->] by lia. reflexivity.
  - intros Hle. destruct n as [|n].
    + destruct m as [|m]; simpl; [reflexivity|]. f_equal. apply IH. lia.
    + apply IH. lia.
Qed.

Lemma substring_skip (a s : string) (m : nat) :
  substring (String.length a) m (a +:+ s) = substring 0 m s.
Proof.
  induction a as [|c a IH]; [reflexivity|]. rewrite append_cons. simpl.
  exact IH.
Qed.

Lemma substring_prefix (d s : string) :
  substring 0 (String.length d) (d +:+ s) = d.
Proof.
  induction d as [|c d IH].
  - destruct s; reflexivity.
  - rewrite append_cons. simpl. now rewrite IH.
Qed.

Lemma slice_inside (s : string) (a b : Z) :
  0 <= a <= b -> b <= Py.len s ->
  Py.slice s a b = substring (Z.to_nat a) (Z.to_nat (b - a)) s.
Proof.
  intros Hab Hb. unfold Py.slice, Py.clamp.
  destruct (Z.ltb_spec a 0); [lia|]. destruct (Z.ltb_spec b 0); [lia|].
  now rewrite !Z.min_l by lia.
Qed.

(** X6.  For a parsed document [storyLength()] is the length of the text,
    and [textRange(0, storyLength())] is the whole text. *)
Theorem X6_story_is_text (xml : markup) (l t : Z) (p : HocrParser) :
  HocrParser_init xml l t = Return p ->
  _getStoryLength p = Py.len (text p)
  /\ _getTextRange p 0 (_getStoryLength p) = text p.
Proof.
  intros H. destruct (parsed_model xml l t p H) as (_ & _ & _ & _ & Hlen).
  unfold _getStoryLength, _getTextRange. split; [exact Hlen|].
  rewrite Hlen, slice_inside by (pose proof (len_nonneg (text p)); lia).
  unfold Py.len. rewrite Z.sub_0_r, Nat2Z.id. apply substring_whole.
Qed.

Lemma X6_story_is_text_witness :
  _getStoryLength page_parser = 18
  /\ _getTextRange page_parser 0 18 = "Hello brave world ".
Proof.
  destruct (X6_story_is_text doc_page 100 50 page_parser eq_refl) as [_ Hall].
  split; [reflexivity | exact Hall].
Defined.

(** X7.  Inside the text, 0 <= a <= b <= c <= storyLength(), text ranges
    have the length of their bounds and adjoin:
    len(textRange(a, b)) = b - a and
    textRange(a, b) + textRange(b, c) = textRange(a, c). *)
Theorem X7_text_ranges_adjoin (xml : markup) (l t : Z) (p : HocrParser)
    (a b c : Z) :
  HocrParser_init xml l t = Return p ->
  0 <= a <= b -> b <= c <= _getStoryLength p ->
  Py.len (_getTextRange p a b) = b - a
  /\ _getTextRange p a b +:+ _getTextRange p b c = _getTextRange p a c.
Proof.
  intros H Hab Hbc.
  destruct (parsed_model xml l t p H) as (_ & _ & _ & _ & Hlen).
  unfold _getStoryLength in Hbc. rewrite Hlen in Hbc.
  unfold _getTextRange. rewrite !slice_inside by lia. split.
  - unfold Py.len in *. rewrite substring_length by lia. lia.
  - replace (Z.to_nat b) with (Z.to_nat a + Z.to_nat (b - a))%nat by lia.
    replace (Z.to_nat (c - a)) with (Z.to_nat (b - a) + Z.to_nat (c - b))%nat
      by lia.
    replace (c - (Z.of_nat (Z.to_nat a + Z.to_nat (b - a)))) with (c - b) by lia.
    apply substring_split.
Qed.

Lemma X7_text_ranges_adjoin_witness :
  _getTextRange page_parser 0 6 = "Hello "
  /\ _getTextRange page_parser 6 12 = "brave "
  /\ "Hello " +:+ "brave " = _getTextRange page_parser 0 12.
Proof.
  destruct (X7_text_ranges_adjoin doc_page 100 50 page_parser 0 6 12 eq_refl)
    as [_ Hcat]; [lia | simpl; lia |].
  split; [reflexivity|]. split; [reflexivity | exact Hcat].
Defined.

(** ** Words, markers and the text *)

(** X8.  The offset of a word is where its text is.  When a readable word
    marker is followed by character data that is not white space only, the
    word recorded for it starts at the length of the text parsed before the
    marker, and the text range of that length from there is the character
    data. *)
Theorem X8_word_offset_finds_text (pre post : list event)
    (attrs : gmap string string) (d : string) (fin0 fin : ending) (l t : Z)
    (p0 p : HocrParser) :
  HocrParser_init (Markup pre fin0) l t = Return p0 ->
  is_Some (bbox_of (StartElement "span" attrs)) ->
  Py.isspace d = false ->
  HocrParser_init
    (Markup (pre ++ StartElement "span" attrs :: CharacterData d :: post) fin)
    l t = Return p ->
  exists w,
    words p !! length (words p0) = Some w
    /\ offset w = _getStoryLength p0
    /\ _getTextRange p (offset w) (offset w + Py.len d) = d.
Proof.
  intros H0 [[L T] Hbbox] Hsp H.
  apply init_inv in H0. destruct H0 as (s0 & Hr0 & ->).
  apply init_inv in H. destruct H as (s3 & Hr & ->).
  simpl in Hr0, Hr. rewrite run_handlers_app, Hr0 in Hr. simpl in Hr.
  destruct (_startElement s0 "span" attrs) as [s1|e1] eqn:Hm; simpl in Hr;
    [|discriminate].
  destruct (word_marker_recorded _ _ _ _ _ Hbbox Hm) as (-> & _ & _).
  unfold _charData in Hr. rewrite Hsp in Hr.
  destruct (run_handlers_grows _ _ _ Hr) as ([more Ht] & _ & [morew Hw]).
  simpl in Ht, Hw.
  pose proof (run_handlers_inv _ _ _ (fresh_parser_inv l t) Hr0) as Hi0.
  eexists. split; [|split].
  - simpl. rewrite Hw, <- app_assoc. simpl.
    apply list_lookup_middle. reflexivity.
  - reflexivity.
  - unfold _getTextRange, _getStoryLength. simpl.
    rewrite Ht, <- app_assoc, join_app. simpl.
    rewrite (inv_len _ Hi0).
    pose proof (len_nonneg (Py.join (_textList s0))) as Hn0.
    pose proof (len_nonneg d) as Hnd.
    rewrite slice_inside.
    + replace (Py.len (Py.join (_textList s0)) + Py.len d
               - Py.len (Py.join (_textList s0))) with (Py.len d) by lia.
      unfold Py.len. rewrite !Nat2Z.id, substring_skip.
      change (Py.join (d :: more)) with (d +:+ Py.join more).
      apply substring_prefix.
    + lia.
    + change (Py.join (d :: more)) with (d +:+ Py.join more).
      unfold Py.len. rewrite !length_append_add. lia.
Qed.

Lemma X8_word_offset_finds_text_witness :
  exists w,
    words page_parser !! 1%nat = Some w
    /\ offset w = 6
    /\ _getTextRange page_parser 6 11 = "brave".
Proof.
  destruct (X8_word_offset_finds_text
              (take 11 (events doc_page)) (drop 13 (events doc_page))
              (word_marker "bbox 70 40 130 80") "brave" Unfinished Complete
              100 50 _ page_parser eq_refl (mk_is_Some _ _ eq_refl) eq_refl
              eq_refl)
    as (w & Hw & Ho & Ht).
  exists w. split; [exact Hw|]. split; [exact Ho|].
  rewrite Ho in Ht. exact Ht.
Defined.

Lemma handle_lines (self self' : HocrParser) (ev : event) :
  handle self ev = Return self' ->
  length (lines self') =
  (length (lines self) + length (List.filter is_line_marker [ev]))%nat.
Proof.
  destruct ev as [tag attrs|tag|data]; simpl.
  - unfold _startElement. destruct (String.eqb_spec tag "span") as [->|Hne].
    + simpl. destruct (attrs !! "class") as [cls|]; [|discriminate].
      destruct (String.eqb cls "ocr_line").
      { intros [= <-]. simpl. now rewrite length_app. }
      destruct (String.eqb cls "ocr_word").
      * destruct (attrs !! "title") as [title|]; [|discriminate].
        destruct (Py.split_space title) as [|? [|l [|t [|? [|? [|? ?]]]]]];
          try discriminate.
        destruct (Py.int l); [|discriminate].
        destruct (Py.truediv_overflows _ _); [discriminate|].
        destruct (Py.float_overflows _); [discriminate|].
        destruct (Py.int t); [|discriminate].
        destruct (Py.truediv_overflows _ _); [discriminate|].
        destruct (Py.float_overflows _); [discriminate|].
        intros [= <-]. simpl. lia.
      * intros [= <-]. simpl. lia.
    + destruct (_ || _); intros [= <-]; simpl; lia.
  - intros [= <-]. unfold _endElement. simpl. lia.
  - intros [= <-]. unfold _charData.
    destruct (Py.isspace data); [|simpl; lia].
    destruct (negb _); [simpl; lia|]. destruct (last_is _ _); simpl; lia.
Qed.

Lemma run_handlers_lines (evs : list event) (self self' : HocrParser) :
  run_handlers self evs = Return self' ->
  length (lines self') =
  (length (lines self) + length (List.filter is_line_marker evs))%nat.
Proof.
  revert self. induction evs as [|ev evs IH]; intros self.
  - simpl. intros [= <-]. lia.
  - cbn [run_handlers].
    destruct (handle self ev) as [self1|e] eqn:Hh; simpl; [|discriminate].
    intros Hrun. rewrite (IH _ Hrun), (handle_lines _ _ _ Hh). simpl.
    destruct (is_line_marker ev); simpl; lia.
Qed.

(** X9.  A parsed document has one word per word marker and one line
    boundary per line marker; and, when the origin and the lefts and tops
    of the markers are of the magnitudes for which the float arithmetic is
    exact, the words hold, in the order of the markers, each marker's left
    and top moved to the screen ([origin + pixel / 2]). *)
Theorem X9_records_follow_markers (xml : markup) (l t : Z) (p : HocrParser) :
  HocrParser_init xml l t = Return p ->
  length (words p) = length (omap bbox_of (events xml))
  /\ length (lines p) = length (List.filter is_line_marker (events xml))
  /\ (Z.abs l < 2 ^ 51 -> Z.abs t < 2 ^ 51 ->
      Forall (fun lt => Z.abs (fst lt) < 2 ^ 52 /\ Z.abs (snd lt) < 2 ^ 52)
        (omap bbox_of (events xml)) ->
      map coords (words p)
      = map (screen_coords l t) (omap bbox_of (events xml))).
Proof.
  intros H. pose proof (parsed_words _ _ _ _ H) as Hwords.
  split; [|split].
  - rewrite <- (length_map coords), Hwords. apply length_map.
  - apply init_inv in H. destruct H as (self & Hrun & ->).
    apply run_handlers_lines in Hrun. exact Hrun.
  - intros _ _ _. exact Hwords.
Qed.

Lemma X9_records_follow_markers_witness :
  length (words page_parser) = 3%nat
  /\ length (lines page_parser) = 2%nat
  /\ map coords (words page_parser)
     = [(toScreen 100 20, toScreen 50 40); (toScreen 100 70, toScreen 50 40);
        (toScreen 100 20, toScreen 50 90)].
Proof.
  destruct (X9_records_follow_markers doc_page 100 50 page_parser eq_refl)
    as (Hw & Hl & Hc).
  split; [exact Hw|]. split; [exact Hl|].
  apply Hc.
  - simpl. lia.
  - simpl. lia.
  - change (omap bbox_of (events doc_page)) with [(20, 40); (70, 40); (20, 90)].
    repeat (apply List.Forall_cons; [simpl; lia|]). apply List.Forall_nil.
Defined.

(** ** Events without effect, and a marker without title *)

Lemma inert_handled (self : HocrParser) (ev : event) :
  inert ev = true -> handle self ev = Return self.
Proof.
  destruct ev as [tag attrs|tag|data]; simpl; [|reflexivity|discriminate].
  unfold _startElement.
  destruct (String.eqb tag "p" || String.eqb tag "div") eqn:Hblock;
    [discriminate|].
  simpl. destruct (String.eqb tag "span"); [discriminate | reflexivity].
Qed.

Lemma run_handlers_inert (evs : list event) (self : HocrParser) :
  run_handlers self (List.filter (fun ev => negb (inert ev)) evs)
  = run_handlers self evs.
Proof.
  revert self. induction evs as [|ev evs IH]; intros self; [reflexivity|].
  simpl. destruct (inert ev) eqn:Hin; simpl.
  - rewrite (inert_handled self ev Hin). simpl. apply IH.
  - destruct (handle self ev); simpl; [apply IH | reflexivity].
Qed.

(** X10.  Closing tags, and opening tags other than [p], [div] and [span],
    have no effect: the parse of a markup is the parse of the same markup
    without them, be it a document or an exception. *)
Theorem X10_inert_events_ignored (evs : list event) (fin : ending) (l t : Z) :
  HocrParser_init (Markup (List.filter (fun ev => negb (inert ev)) evs) fin) l t
  = HocrParser_init (Markup evs fin) l t.
Proof.
  unfold HocrParser_init, Parse. simpl. now rewrite run_handlers_inert.
Qed.

(** X11.  On a word marker without a title attribute [_startElement]
    raises AttributeError ([attrs.get] gives None, which has no [split]);
    a parse that reaches such a marker ends with that error, and no markup
    containing one parses. *)
Theorem X11_word_marker_without_title (attrs : gmap string string) :
  attrs !! "class" = Some "ocr_word" -> attrs !! "title" = None ->
  (forall self, _startElement self "span" attrs = Raise AttributeError)
  /\ (forall pre post fin l t self,
        run_handlers (fresh_parser l t) pre = Return self ->
        HocrParser_init (Markup (pre ++ StartElement "span" attrs :: post) fin) l t
          = Raise AttributeError)
  /\ (forall xml l t,
        StartElement "span" attrs ∈ events xml ->
        raises (HocrParser_init xml l t)).
Proof.
  intros Hcls Htitle.
  assert (Hraise : forall self,
            _startElement self "span" attrs = Raise AttributeError).
  { intros self. unfold _startElement. simpl. rewrite Hcls. simpl.
    now rewrite Htitle. }
  split; [exact Hraise|]. split.
  - intros pre post fin l t self Hpre.
    eapply init_raises_at; [exact Hpre | apply Hraise].
  - intros xml l t Hin. apply init_raises.
    eapply run_handlers_raises; [|exact Hin].
    intros self. exists AttributeError. apply Hraise.
Qed.

Lemma X11_word_marker_without_title_witness :
  HocrParser_init
    (Markup [StartElement "p" ∅; StartElement "span" (marker "ocr_word");
             CharacterData "Hi"; EndElement "span"; EndElement "p"] Complete)
    100 50 = Raise AttributeError.
Proof.
  destruct (X11_word_marker_without_title (marker "ocr_word") eq_refl eq_refl)
    as (_ & Hat & _).
  exact (Hat [StartElement "p" ∅]
             [CharacterData "Hi"; EndElement "span"; EndElement "p"]
             Complete 100 50 _ eq_refl).
Defined.

(** ** White space in the text *)

Example single_spaced_yes : single_spaced "Hello brave world " = true.
Proof. reflexivity. Qed.
Example single_spaced_leading : single_spaced " Hello" = false.
Proof. reflexivity. Qed.
Example single_spaced_double : single_spaced "a  b" = false.
Proof. reflexivity. Qed.
Example single_spaced_newline : single_spaced (String "a" (String "010" "b")) = false.
Proof. reflexivity. Qed.

Lemma spaced_app (s u : string) (b : bool) :
  spaced b (s +:+ u) = spaced b s && spaced (ends_blank b s) u.
Proof.
  revert b. induction s as [|c s IH]; intros b; [reflexivity|].
  rewrite append_cons. simpl.
  destruct (Py.isspace_char c); rewrite IH; [|reflexivity].
  now rewrite !andb_assoc.
Qed.

Lemma ends_blank_app (s u : string) (b : bool) :
  ends_blank b (s +:+ u) = ends_blank (ends_blank b s) u.
Proof.
  revert b. induction s as [|c s IH]; intros b; [reflexivity|].
  rewrite append_cons. simpl. apply IH.
Qed.

Lemma no_space_spaced (d : string) (b : bool) :
  no_space d = true -> spaced b d = true.
Proof.
  revert b. induction d as [|c d IH]; intros b; simpl; [reflexivity|].
  intros Hd. apply andb_true_iff in Hd. destruct Hd as [Hc Hd].
  apply negb_true_iff in Hc. rewrite Hc. now apply IH.
Qed.

Lemma no_space_ends (d : string) (b : bool) :
  no_space d = true -> d <> "" -> ends_blank b d = false.
Proof.
  revert b. induction d as [|c d IH]; intros b; simpl; [congruence|].
  intros Hd _. apply andb_true_iff in Hd. destruct Hd as [Hc Hd].
  apply negb_true_iff in Hc. rewrite Hc.
  destruct d as [|c' d]; [reflexivity|]. now apply IH.
Qed.

Lemma no_space_not_blank (d : string) : no_space d = true -> String.eqb d " " = false.
Proof.
  intros Hd. destruct (String.eqb_spec d " ") as [->|]; [discriminate Hd | reflexivity].
Qed.

Lemma last_is_snoc (l : list string) (d x : string) :
  last_is (l ++ [d]) x = String.eqb d x.
Proof. unfold last_is. now rewrite last_snoc. Qed.

(** What the text list looks like while hOCR-shaped chunks arrive. *)
Record spacing_inv (self : HocrParser) : Prop := mk_spacing_inv {
  sp_spaced : spaced true (Py.join (_textList self)) = true;
  sp_content : _hasBlockHadContent self = true -> _textList self <> [];
  sp_last : _textList self <> [] ->
            last_is (_textList self) " "
            = ends_blank true (Py.join (_textList self))
}.

Lemma spacing_same_text (self self' : HocrParser) :
  _textList self' = _textList self ->
  (_hasBlockHadContent self' = true -> _hasBlockHadContent self = true) ->
  spacing_inv self -> spacing_inv self'.
Proof.
  intros Ht Hf [Hs Hc Hl]. constructor; rewrite Ht; auto.
Qed.

Lemma spacing_append_word (self : HocrParser) (d : string) :
  no_space d = true -> d <> "" ->
  spacing_inv self -> spacing_inv (append_text d self).
Proof.
  intros Hd Hne [Hs Hc Hl]. constructor; simpl.
  - rewrite join_snoc, spaced_app, Hs. simpl. now apply no_space_spaced.
  - intros _ Hnil. now apply app_eq_nil in Hnil as [_ [=]].
  - intros _. rewrite last_is_snoc, join_snoc, ends_blank_app.
    rewrite no_space_not_blank by exact Hd.
    symmetry. now apply no_space_ends.
Qed.

Lemma spacing_append_space (self : HocrParser) :
  _hasBlockHadContent self = true ->
  last_is (_textList self) " " = false ->
  spacing_inv self -> spacing_inv (append_text " " self).
Proof.
  intros Hflag Hlast [Hs Hc Hl]. specialize (Hl (Hc Hflag)).
  rewrite Hlast in Hl. constructor; simpl.
  - rewrite join_snoc, spaced_app, Hs, <- Hl. reflexivity.
  - intros _ Hnil. now apply app_eq_nil in Hnil as [_ [=]].
  - intros _. now rewrite last_is_snoc, join_snoc, ends_blank_app.
Qed.

Lemma handle_spacing (self self' : HocrParser) (ev : event) :
  hocr_chunk ev -> spacing_inv self -> handle self ev = Return self' ->
  spacing_inv self'.
Proof.
  intros Hchunk Hinv. destruct ev as [tag attrs|tag|data]; simpl.
  - unfold _startElement.
    destruct (_ || _).
    { intros [= <-]. destruct Hinv as [Hs Hc Hl].
      constructor; simpl; [exact Hs | discriminate | exact Hl]. }
    destruct (String.eqb tag "span"); [|now intros [= <-]].
    destruct (attrs !! "class") as [cls|]; [|discriminate].
    destruct (String.eqb cls "ocr_line").
    { intros [= <-]. now apply (spacing_same_text self). }
    destruct (String.eqb cls "ocr_word"); [|now intros [= <-]].
    destruct (attrs !! "title") as [title|]; [|discriminate].
    destruct (Py.split_space title) as [|? [|l [|t [|? [|? [|? ?]]]]]];
      try discriminate.
    destruct (Py.int l); [|discriminate].
    destruct (Py.truediv_overflows _ _); [discriminate|].
    destruct (Py.float_overflows _); [discriminate|].
    destruct (Py.int t); [|discriminate].
    destruct (Py.truediv_overflows _ _); [discriminate|].
    destruct (Py.float_overflows _); [discriminate|].
    intros [= <-]. now apply (spacing_same_text self).
  - now intros [= <-].
  - intros [= <-]. destruct Hchunk as [Hne Hshape]. unfold _charData.
    destruct (Py.isspace data) eqn:Hsp.
    + destruct (_hasBlockHadContent self) eqn:Hflag; simpl; [|exact Hinv].
      destruct (last_is (_textList self) " ") eqn:Hlast; [exact Hinv|].
      now apply spacing_append_space.
    + destruct Hshape as [Hws|Hns]; [congruence|].
      now apply spacing_append_word.
Qed.

Lemma run_handlers_spacing (evs : list event) (self self' : HocrParser) :
  Forall hocr_chunk evs -> spacing_inv self ->
  run_handlers self evs = Return self' -> spacing_inv self'.
Proof.
  intros Hevs. revert self.
  induction Hevs as [|ev evs Hev Hevs IH]; intros self Hinv; simpl.
  - now intros [= <-].
  - destruct (handle self ev) as [self1|e] eqn:Hh; simpl; [|discriminate].
    apply IH. eapply handle_spacing; eassumption.
Qed.

(** X12.  When every chunk of character data is either white space only
    or free of white space (and not empty), the text of the parsed
    document has no white space but single spaces, none of them at the
    start and no two of them in a row. *)
Theorem X12_text_single_spaced (xml : markup) (l t : Z) (p : HocrParser) :
  Forall hocr_chunk (events xml) ->
  HocrParser_init xml l t = Return p ->
  single_spaced (text p) = true.
Proof.
  intros Hevs H. apply init_inv in H. destruct H as (self & Hrun & ->).
  apply (run_handlers_spacing _ _ _ Hevs) in Hrun.
  - simpl. exact (sp_spaced _ Hrun).
  - constructor; simpl; [reflexivity | discriminate | congruence].
Qed.

Lemma X12_text_single_spaced_witness :
  single_spaced "Hello brave world " = true.
Proof.
  apply (X12_text_single_spaced doc_page 100 50 page_parser);
    [|reflexivity].
  unfold doc_page, events.
  repeat (apply Forall_cons; split;
          [first [exact I
                 | split; [discriminate
                          | first [left; reflexivity | right; reflexivity]]]|]).
  constructor.
Defined.

(** * The language tables *)

Lemma fold_insert_lookup (items : list (string * string))
    (d : gmap string string) (k v : string) :
  fold_left (fun d kv => <[ fst kv := snd kv ]> d) items d !! k = Some v ->
  (k, v) ∈ items \/ d !! k = Some v.
Proof.
  revert d. induction items as [|[k' v'] items IH]; intros d; simpl.
  - now right.
  - intros H. destruct (IH _ H) as [Hin | Hd].
    + left. now right.
    + destruct (decide (k' = k)) as [->|Hne].
      * rewrite lookup_insert_eq in Hd. injection Hd as ->. left. left.
      * rewrite lookup_insert_ne in Hd by exact Hne. now right.
Qed.

Lemma dict_of_lookup (items : list (string * string)) (k v : string) :
  dict_of items !! k = Some v -> (k, v) ∈ items.
Proof.
  intros H. destruct (fold_insert_lookup _ _ _ _ H) as [Hin | Hd];
    [exact Hin | now rewrite lookup_empty in Hd].
Qed.

(** Every pair of the display is in the one table and, turned round, in
    the other. *)
Lemma items_in_tables :
  Forall (fun kv => localesToTesseractLangs !! fst kv = Some (snd kv)
                    /\ tesseractLangsToLocales !! snd kv = Some (fst kv))
    localesToTesseractLangs_items.
Proof.
  unfold localesToTesseractLangs_items.
  repeat (apply List.Forall_cons; [split; vm_compute; reflexivity|]).
  apply List.Forall_nil.
Qed.

Lemma tables_inverse (k v : string) :
  localesToTesseractLangs !! k = Some v
  <-> tesseractLangsToLocales !! v = Some k.
Proof.
  pose proof items_in_tables as Hall. rewrite Forall_forall in Hall.
  split; intros H.
  - apply dict_of_lookup in H. exact (proj2 (Hall _ H)).
  - apply dict_of_lookup in H. apply list_elem_of_In, List.in_map_iff in H.
    destruct H as ([k' v'] & [= -> ->] & Hin).
    apply list_elem_of_In in Hin. exact (proj1 (Hall _ Hin)).
Qed.

(** X13.  The two language tables are inverse to each other: a locale has
    a Tesseract language exactly when that language has that locale; so no
    two locales share a language, and looking a language up and back gives
    the locale again. *)
Theorem X13_language_tables_inverse (k v : string) :
  localesToTesseractLangs !! k = Some v
  <-> tesseractLangsToLocales !! v = Some k.
Proof. apply tables_inverse. Qed.

Lemma X13_language_tables_inverse_witness :
  localesToTesseractLangs !! "pt" = Some "por"
  /\ tesseractLangsToLocales !! "por" = Some "pt".
Proof.
  assert (H : localesToTesseractLangs !! "pt" = Some "por")
    by (vm_compute; reflexivity).
  split; [exact H|].
  exact (proj1 (X13_language_tables_inverse "pt" "por") H).
Defined.

(** ** The default language *)

Lemma split_char_head (sep : ascii) (base rest : string) :
  PyLib.contains_char sep base = false ->
  PyLib.split_char sep (base +:+ String sep rest)
  = base :: PyLib.split_char sep rest.
Proof.
  induction base as [|c base IH]; intros H.
  - change ("" +:+ String sep rest) with (String sep rest).
    cbn [PyLib.split_char]. now rewrite Ascii.eqb_refl.
  - cbn [PyLib.contains_char] in H. apply orb_false_iff in H.
    destruct H as [Hc Hbase]. rewrite append_cons.
    cbn [PyLib.split_char]. now rewrite Hc, (IH Hbase).
Qed.

Lemma contains_char_app (sep : ascii) (base rest : string) :
  PyLib.contains_char sep (base +:+ String sep rest) = true.
Proof.
  induction base as [|c base IH].
  - change ("" +:+ String sep rest) with (String sep rest).
    cbn [PyLib.contains_char]. now rewrite Ascii.eqb_refl.
  - rewrite append_cons. cbn [PyLib.contains_char]. rewrite IH.
    apply orb_true_r.
Qed.

(** X14.  Whatever language the host reports, the default language is one
    of the table: it has a locale in [tesseractLangsToLocales], and that
    locale has it as its language. *)
Theorem X14_default_language_known (lang : string) :
  exists locale,
    tesseractLangsToLocales !! getDefaultLanguage lang = Some locale
    /\ localesToTesseractLangs !! locale = Some (getDefaultLanguage lang).
Proof.
  unfold getDefaultLanguage.
  match goal with |- context [localesToTesseractLangs !! (if ?c then ?a else ?b)] =>
    set (lang' := if c then a else b) end.
  destruct (localesToTesseractLangs !! lang') as [tess|] eqn:Hl.
  - exists lang'. split; [now apply tables_inverse | exact Hl].
  - exists "en". split; vm_compute; reflexivity.
Qed.

(** X15.  The default language of a locale of the table is its language; a
    locale that is not in the table but has an underscore is looked up by
    what is before its first underscore; and every other unknown locale
    gives "eng". *)
Theorem X15_default_language_cases (lang : string) :
  (forall tess,
     localesToTesseractLangs !! lang = Some tess ->
     getDefaultLanguage lang = tess)
  /\ (forall base region,
        lang = base +:+ String "_" region ->
        PyLib.contains_char "_" base = false ->
        localesToTesseractLangs !! lang = None ->
        getDefaultLanguage lang
        = match localesToTesseractLangs !! base with
          | Some tess => tess
          | None => "eng"
          end)
  /\ (localesToTesseractLangs !! lang = None ->
      PyLib.contains_char "_" lang = false ->
      getDefaultLanguage lang = "eng").
Proof.
  unfold getDefaultLanguage. split; [|split].
  - intros tess H. rewrite H. cbn [andb]. rewrite H. reflexivity.
  - intros base region -> Hbase Hnone.
    rewrite Hnone, contains_char_app. cbn [andb].
    rewrite split_char_head by exact Hbase. reflexivity.
  - intros Hnone Hus. rewrite Hnone, Hus. cbn [andb]. rewrite Hnone.
    reflexivity.
Qed.

Lemma X15_default_language_cases_witness :
  getDefaultLanguage "nb_NO" = "nor"
  /\ getDefaultLanguage "pt_BR" = "por"
  /\ getDefaultLanguage "zh_TW" = "eng"
  /\ getDefaultLanguage "nb" = "eng".
Proof.
  split; [|split; [|split]].
  - apply (proj1 (X15_default_language_cases "nb_NO")).
    vm_compute; reflexivity.
  - rewrite (proj1 (proj2 (X15_default_language_cases "pt_BR")) "pt" "BR");
      [vm_compute; reflexivity | reflexivity | reflexivity
      | vm_compute; reflexivity].
  - rewrite (proj1 (proj2 (X15_default_language_cases "zh_TW")) "zh" "TW");
      [vm_compute; reflexivity | reflexivity | reflexivity
      | vm_compute; reflexivity].
  - apply (proj2 (proj2 (X15_default_language_cases "nb")));
      [vm_compute; reflexivity | reflexivity].
Defined.

(** ** The installed language packs *)

Lemma endswith_app (stem suffix : string) :
  PyLib.endswith (stem +:+ suffix) suffix = true.
Proof.
  unfold PyLib.endswith. rewrite length_append_add.
  replace (String.length stem + String.length suffix - String.length suffix)%nat
    with (String.length stem) by lia.
  rewrite substring_skip, substring_whole, String.eqb_refl.
  apply andb_true_iff. split; [|reflexivity]. apply Nat.leb_le. lia.
Qed.

Lemma rfind_from_app (c : ascii) (a b : string) (i found : Z) :
  PyLib.rfind_from c (a +:+ b) i found
  = PyLib.rfind_from c b (i + Py.len a) (PyLib.rfind_from c a i found).
Proof.
  revert i found. induction a as [|ch a IH]; intros i found.
  - change ("" +:+ b) with b. unfold Py.len. simpl. now rewrite Z.add_0_r.
  - rewrite append_cons. cbn [PyLib.rfind_from]. rewrite IH.
    f_equal. unfold Py.len. simpl String.length. lia.
Qed.

Lemma rfind_from_absent (c : ascii) (s : string) (i found : Z) :
  PyLib.contains_char c s = false -> PyLib.rfind_from c s i found = found.
Proof.
  revert i found. induction s as [|ch s IH]; intros i found; simpl;
    [reflexivity|].
  intros H. apply orb_false_iff in H. destruct H as [Hc Hs].
  rewrite Hc. now apply IH.
Qed.

Lemma rfind_from_bounds (c : ascii) (s : string) (i found : Z) :
  found < i ->
  found <= PyLib.rfind_from c s i found < i + Py.len s.
Proof.
  revert i found. induction s as [|ch s IH]; intros i found Hlt.
  - unfold Py.len. simpl. lia.
  - cbn [PyLib.rfind_from].
    assert (Hlen : Py.len (String ch s) = 1 + Py.len s)
      by (unfold Py.len; simpl String.length; lia).
    rewrite Hlen. destruct (Ascii.eqb ch c).
    + specialize (IH (i + 1) i). lia.
    + specialize (IH (i + 1) found). lia.
Qed.

Lemma get_app_at (a r : string) (c : ascii) :
  String.get (String.length a) (a +:+ String c r) = Some c.
Proof.
  induction a as [|ch a IH]; [reflexivity|]. rewrite append_cons. exact IH.
Qed.

Lemma has_name_char_app (a b r : string) :
  PyLib.has_name_char ((a +:+ b) +:+ r) (String.length a) (String.length b)
  = negb (all_dots b).
Proof.
  revert a. induction b as [|c b IH]; intros a; [reflexivity|].
  cbn [String.length PyLib.has_name_char all_dots].
  rewrite append_assoc, append_cons, get_app_at.
  destruct (Ascii.eqb c "."); [|reflexivity]. cbn [andb].
  rewrite <- (IH (a +:+ String c "")).
  rewrite length_append_add. cbn [String.length].
  replace (String.length a + 1)%nat with (S (String.length a)) by lia.
  f_equal. now rewrite !append_assoc.
Qed.

Lemma splitext_pack (stem : string) :
  plain_name stem ->
  PyLib.splitext (stem +:+ ".traineddata") = (stem, ".traineddata").
Proof.
  intros (Hslash & Hback & Hdots). unfold PyLib.splitext, PyLib.rfind.
  rewrite !rfind_from_app.
  rewrite (rfind_from_absent "\" stem) by exact Hback.
  rewrite (rfind_from_absent "/" stem) by exact Hslash.
  cbn [PyLib.rfind_from Ascii.eqb Bool.eqb].
  change (Z.max (-1) (-1)) with (-1).
  replace (-1 + 1) with 0 by lia. rewrite Z.sub_0_r, Z.add_0_l.
  pose proof (len_nonneg stem) as Hn.
  destruct (Z.ltb_spec (-1) (Py.len stem)); [|lia]. cbn [andb].
  unfold Py.len at 1 2. rewrite Nat2Z.id.
  change (Z.to_nat 0) with (String.length "").
  change (stem +:+ ".traineddata") with (("" +:+ stem) +:+ ".traineddata").
  rewrite has_name_char_app, Hdots. cbn [negb].
  change (("" +:+ stem) +:+ ".traineddata") with (stem +:+ ".traineddata").
  assert (Htot : Py.len (stem +:+ ".traineddata") = Py.len stem + 12)
    by (unfold Py.len; rewrite length_append_add; simpl String.length; lia).
  rewrite !slice_inside by (unfold Py.len in *; lia). f_equal.
  - rewrite Z.sub_0_r. unfold Py.len. rewrite Nat2Z.id.
    apply substring_prefix.
  - rewrite Htot. replace (Py.len stem + 12 - Py.len stem) with 12 by lia.
    unfold Py.len. rewrite Nat2Z.id, substring_skip. reflexivity.
Qed.

Lemma splitext_joins (p : string) :
  fst (PyLib.splitext p) +:+ snd (PyLib.splitext p) = p.
Proof.
  unfold PyLib.splitext.
  set (sepIndex := Z.max _ _). set (dotIndex := PyLib.rfind "." p).
  destruct (Z.ltb_spec sepIndex dotIndex); cbn [andb];
    [|simpl; apply append_empty_r].
  destruct (PyLib.has_name_char _ _ _); [|simpl; apply append_empty_r].
  assert (Hsep : -1 <= sepIndex).
  { subst sepIndex. pose proof (rfind_from_bounds "/" p 0 (-1)).
    unfold PyLib.rfind. lia. }
  assert (Hdot : dotIndex < Py.len p).
  { subst dotIndex. pose proof (rfind_from_bounds "." p 0 (-1)).
    unfold PyLib.rfind. lia. }
  simpl. rewrite !slice_inside by lia.
  rewrite Z.sub_0_r. change (Z.to_nat 0) with 0%nat.
  pose proof (substring_split p 0 (Z.to_nat dotIndex)
                (Z.to_nat (Py.len p - dotIndex))) as Hsplit.
  simpl Nat.add in Hsplit. rewrite Hsplit.
  replace (Z.to_nat dotIndex + Z.to_nat (Py.len p - dotIndex))%nat
    with (String.length p) by (unfold Py.len in *; lia).
  apply substring_whole.
Qed.

(** X16.  A language pack in the data directory is offered: when the
    directory listing has the file [stem.traineddata], where [stem] has
    no path separator and is not made of dots only, [stem] is among the
    available languages.  And every available language is the beginning
    of the name of a listed file that ends with ".traineddata". *)
Theorem X16_available_languages (listing : list string) (lang : string) :
  ((lang +:+ ".traineddata") ∈ listing -> plain_name lang ->
   lang ∈ getAvailableTesseractLanguages listing)
  /\ (lang ∈ getAvailableTesseractLanguages listing ->
      exists file ext,
        file ∈ listing
        /\ PyLib.endswith file ".traineddata" = true
        /\ file = lang +:+ ext).
Proof.
  unfold getAvailableTesseractLanguages. split.
  - intros Hin Hplain. apply list_elem_of_In, List.in_map_iff.
    exists (lang +:+ ".traineddata"). split.
    + now rewrite splitext_pack.
    + apply List.filter_In. split; [now apply list_elem_of_In|].
      apply endswith_app.
  - intros Hin. apply list_elem_of_In, List.in_map_iff in Hin.
    destruct Hin as (file & <- & Hfile). apply List.filter_In in Hfile.
    destruct Hfile as [Hfile Hends].
    exists file, (snd (PyLib.splitext file)).
    split; [now apply list_elem_of_In|]. split; [exact Hends|].
    symmetry. apply splitext_joins.
Qed.

Lemma X16_available_languages_witness :
  "por" ∈ getAvailableTesseractLanguages
            ["eng.traineddata"; "readme.txt"; "por.traineddata"]
  /\ getAvailableTesseractLanguages
       ["eng.traineddata"; "readme.txt"; "por.traineddata"] = ["eng"; "por"].
Proof.
  split; [|reflexivity].
  apply (proj1 (X16_available_languages
                  ["eng.traineddata"; "readme.txt"; "por.traineddata"] "por")).
  - right. right. left.
  - repeat split.
Defined.

(** A file called just ".traineddata" has no extension for [splitext]: its
    whole name is offered as a language. *)
Example dot_file_offered :
  getAvailableTesseractLanguages [".traineddata"] = [".traineddata"].
Proof. reflexivity. Qed.

(** ** The settings dialog *)

Lemma insert_sorted_elem (x y : string) (l : list string) :
  y ∈ PyLib.insert_sorted x l <-> y = x \/ y ∈ l.
Proof.
  induction l as [|z l IH]; simpl.
  - rewrite list_elem_of_singleton, elem_of_nil. tauto.
  - destruct (String.leb x z).
    + now rewrite elem_of_cons.
    + rewrite !elem_of_cons, IH. tauto.
Qed.

Lemma sorted_elem (y : string) (l : list string) :
  y ∈ PyLib.sorted l <-> y ∈ l.
Proof.
  induction l as [|x l IH]; simpl; [reflexivity|].
  rewrite insert_sorted_elem, elem_of_cons, IH. tauto.
Qed.

Lemma insert_sorted_length (x : string) (l : list string) :
  length (PyLib.insert_sorted x l) = S (length l).
Proof.
  induction l as [|z l IH]; simpl; [reflexivity|].
  destruct (String.leb x z); simpl; [reflexivity | now rewrite IH].
Qed.

Lemma sorted_length (l : list string) : length (PyLib.sorted l) = length l.
Proof.
  induction l as [|x l IH]; simpl; [reflexivity|].
  now rewrite insert_sorted_length, IH.
Qed.

Lemma index_Some (x : string) (l : list string) (i : nat) :
  PyLib.index x l = Some i -> l !! i = Some x.
Proof.
  revert i. induction l as [|y l IH]; intros i; simpl; [discriminate|].
  destruct (String.eqb_spec y x) as [->|Hne].
  - now intros [= <-].
  - destruct (PyLib.index x l) as [j|]; simpl; [|discriminate].
    intros [= <-]. simpl. now apply IH.
Qed.

Lemma index_None (x : string) (l : list string) :
  PyLib.index x l = None <-> x ∉ l.
Proof.
  induction l as [|y l IH]; simpl.
  - split; [intros _; apply not_elem_of_nil | reflexivity].
  - rewrite not_elem_of_cons. destruct (String.eqb_spec y x) as [->|Hne].
    + split; [discriminate | intros [Hxx _]; congruence].
    + destruct (PyLib.index x l) as [j|]; simpl.
      * split; [discriminate|]. intros [_ Hl]. now apply IH in Hl.
      * split; [|reflexivity]. intros _. split; [congruence | now apply IH].
Qed.

Lemma getitem_elem (l : list string) (i : Z) (x : string) :
  PyLib.getitem l i = Some x -> x ∈ l.
Proof.
  unfold PyLib.getitem. destruct (_ && _); [|discriminate].
  intros H. eapply list_elem_of_lookup_2. exact H.
Qed.

Lemma getitem_inside (l : list string) (i : nat) (x : string) :
  l !! i = Some x -> PyLib.getitem l (Z.of_nat i) = Some x.
Proof.
  intros H. pose proof (lookup_lt_Some _ _ _ H) as Hlt.
  unfold PyLib.getitem.
  destruct (Z.ltb_spec (Z.of_nat i) 0); [lia|].
  destruct (Z.leb_spec 0 (Z.of_nat i)); [|lia].
  destruct (Z.ltb_spec (Z.of_nat i) (Z.of_nat (length l))); [|lia].
  simpl. now rewrite Nat2Z.id.
Qed.

Lemma choices_None (describe : string -> option string) (langs : list string) :
  settings_choices describe langs = None
  <-> exists lang, lang ∈ langs /\ tesseractLangsToLocales !! lang = None.
Proof.
  induction langs as [|lang langs IH]; cbn [settings_choices].
  - split; [discriminate|]. intros (x & Hx & _). now apply elem_of_nil in Hx.
  - destruct (tesseractLangsToLocales !! lang) as [locale|] eqn:Hl.
    + destruct (settings_choices describe langs) as [cs|];
        cbn [fmap option_fmap option_map].
      * split; [discriminate|]. intros (x & Hx & Hnone).
        apply elem_of_cons in Hx. destruct Hx as [->|Hx]; [congruence|].
        assert (Hex : exists lang0, lang0 ∈ langs
                        /\ tesseractLangsToLocales !! lang0 = None)
          by (exists x; split; assumption).
        apply IH in Hex. discriminate Hex.
      * split; [|reflexivity]. intros _.
        destruct (proj1 IH eq_refl) as (x & Hx & Hnone).
        exists x. split; [now right | exact Hnone].
    + split; [|reflexivity]. intros _. exists lang. split; [left | exact Hl].
Qed.

Lemma choices_Some (describe : string -> option string) (langs cs : list string) :
  settings_choices describe langs = Some cs ->
  length cs = length langs
  /\ Forall (fun lang => is_Some (tesseractLangsToLocales !! lang)) langs.
Proof.
  revert cs. induction langs as [|lang langs IH]; intros cs;
    cbn [settings_choices].
  - intros [= <-]. split; [reflexivity | constructor].
  - destruct (tesseractLangsToLocales !! lang) as [locale|] eqn:Hl;
      [|discriminate].
    destruct (settings_choices describe langs) as [cs'|];
      cbn [fmap option_fmap option_map]; [|discriminate].
    intros [= <-]. destruct (IH cs' eq_refl) as [Hlen Hall].
    split; [simpl; now rewrite Hlen|].
    constructor; [rewrite Hl; eexists; reflexivity | exact Hall].
Qed.

(** X17.  Whatever the dialog answers, the language configured after
    [onOCRSettings] is the one configured before or one of the available
    languages; and a language is only ever taken over when every available
    language has a locale in the table. *)
Theorem X17_settings_keep_or_installed (describe : string -> option string)
    (dialog : list string -> nat -> option Z) (listing : list string)
    (curlang lang : string) :
  onOCRSettings describe dialog listing curlang = Language lang ->
  (lang = curlang \/ lang ∈ getAvailableTesseractLanguages listing)
  /\ Forall (fun l => is_Some (tesseractLangsToLocales !! l))
       (getAvailableTesseractLanguages listing).
Proof.
  unfold onOCRSettings.
  set (langs := PyLib.sorted (getAvailableTesseractLanguages listing)).
  destruct (match PyLib.index curlang langs with
            | Some i => Some i
            | None => PyLib.index "eng" langs
            end) as [select|]; [|discriminate].
  destruct (settings_choices describe langs) as [choices|] eqn:Hch;
    [|discriminate].
  destruct (choices_Some _ _ _ Hch) as [_ Hknown].
  assert (Hall : Forall (fun l => is_Some (tesseractLangsToLocales !! l))
                   (getAvailableTesseractLanguages listing)).
  { rewrite Forall_forall in Hknown. apply Forall_forall. intros l Hl.
    apply Hknown. subst langs. now apply sorted_elem. }
  destruct (dialog choices select) as [i|].
  - destruct (PyLib.getitem langs i) as [l|] eqn:Hget; [|discriminate].
    intros [= <-]. split; [|exact Hall]. right.
    apply getitem_elem in Hget. subst langs.
    exact (proj1 (sorted_elem _ _) Hget).
  - intros [= <-]. split; [now left | exact Hall].
Qed.

Lemma X17_settings_keep_or_installed_witness :
  onOCRSettings no_description (dialog_ok 1)
    ["por.traineddata"; "eng.traineddata"] "eng" = Language "por"
  /\ "por" ∈ getAvailableTesseractLanguages
               ["por.traineddata"; "eng.traineddata"].
Proof.
  assert (H : onOCRSettings no_description (dialog_ok 1)
                ["por.traineddata"; "eng.traineddata"] "eng" = Language "por")
    by (vm_compute; reflexivity).
  split; [exact H|].
  destruct (proj1 (X17_settings_keep_or_installed _ _ _ _ _ H)) as [Heq|Hin];
    [discriminate Heq | exact Hin].
Defined.

(** X18.  The dialog is not shown when it cannot be filled.  If neither
    the configured language nor "eng" is available, [onOCRSettings] raises
    the ValueError of [langs.index('eng')]; otherwise, if some available
    language has no locale in the table (the pack "osd", say), it raises
    the KeyError of [tesseractLangsToLocales[lang]]. *)
Theorem X18_settings_errors (describe : string -> option string)
    (dialog : list string -> nat -> option Z) (listing : list string)
    (curlang : string) :
  (curlang ∉ getAvailableTesseractLanguages listing ->
   "eng" ∉ getAvailableTesseractLanguages listing ->
   onOCRSettings describe dialog listing curlang
   = SettingsRaise IndexValueError)
  /\ (forall lang,
        curlang ∈ getAvailableTesseractLanguages listing
        \/ "eng" ∈ getAvailableTesseractLanguages listing ->
        lang ∈ getAvailableTesseractLanguages listing ->
        tesseractLangsToLocales !! lang = None ->
        onOCRSettings describe dialog listing curlang
        = SettingsRaise LocaleKeyError).
Proof.
  unfold onOCRSettings.
  set (langs := PyLib.sorted (getAvailableTesseractLanguages listing)).
  split.
  - intros Hcur Heng.
    assert (Hc : PyLib.index curlang langs = None)
      by (apply index_None; subst langs; now rewrite sorted_elem).
    assert (He : PyLib.index "eng" langs = None)
      by (apply index_None; subst langs; now rewrite sorted_elem).
    now rewrite Hc, He.
  - intros lang Hsome Hin Hnone.
    assert (Hsel : exists select,
              match PyLib.index curlang langs with
              | Some i => Some i
              | None => PyLib.index "eng" langs
              end = Some select).
    { destruct (PyLib.index curlang langs) as [i|] eqn:Hc; [now exists i|].
      destruct (PyLib.index "eng" langs) as [i|] eqn:He; [now exists i|].
      apply index_None in Hc, He. subst langs. rewrite sorted_elem in Hc, He.
      tauto. }
    destruct Hsel as [select ->].
    assert (Hch : settings_choices describe langs = None).
    { apply choices_None. exists lang. split; [|exact Hnone].
      subst langs. now apply sorted_elem. }
    now rewrite Hch.
Qed.

Lemma X18_settings_errors_witness :
  onOCRSettings no_description dialog_accept ["por.traineddata"] "deu"
  = SettingsRaise IndexValueError
  /\ onOCRSettings no_description dialog_accept
       ["eng.traineddata"; "osd.traineddata"] "eng"
     = SettingsRaise LocaleKeyError.
Proof.
  split.
  - apply (proj1 (X18_settings_errors no_description dialog_accept
                    ["por.traineddata"] "deu"));
      change (getAvailableTesseractLanguages ["por.traineddata"]) with ["por"];
      intros Hin; apply list_elem_of_singleton in Hin; discriminate Hin.
  - apply (proj2 (X18_settings_errors no_description dialog_accept
                    ["eng.traineddata"; "osd.traineddata"] "eng") "osd");
      change (getAvailableTesseractLanguages
                ["eng.traineddata"; "osd.traineddata"]) with ["eng"; "osd"].
    + left. left.
    + right. left.
    + vm_compute. reflexivity.
Defined.

(** X19.  When every available language has a locale and the configured
    language is available, the dialog is shown, with one choice per
    available language and the configured language preselected; closed
    with OK on the preselected choice, or cancelled, it leaves the
    configured language as it is. *)
Theorem X19_settings_preselect (describe : string -> option string)
    (listing : list string) (curlang : string) :
  curlang ∈ getAvailableTesseractLanguages listing ->
  Forall (fun l => is_Some (tesseractLangsToLocales !! l))
    (getAvailableTesseractLanguages listing) ->
  exists choices select,
    settings_choices describe
      (PyLib.sorted (getAvailableTesseractLanguages listing)) = Some choices
    /\ length choices = length (getAvailableTesseractLanguages listing)
    /\ PyLib.sorted (getAvailableTesseractLanguages listing) !! select
       = Some curlang
    /\ (forall dialog,
          onOCRSettings describe dialog listing curlang
          = match dialog choices select with
            | None => Language curlang
            | Some i =>
                match PyLib.getitem
                        (PyLib.sorted (getAvailableTesseractLanguages listing)) i
                with
                | Some lang => Language lang
                | None => SettingsRaise SelectionIndexError
                end
            end)
    /\ onOCRSettings describe dialog_accept listing curlang = Language curlang
    /\ onOCRSettings describe dialog_cancel listing curlang = Language curlang.
Proof.
  intros Hcur Hknown. unfold onOCRSettings.
  set (langs := PyLib.sorted (getAvailableTesseractLanguages listing)).
  destruct (PyLib.index curlang langs) as [select|] eqn:Hsel.
  2: { apply index_None in Hsel. subst langs. now rewrite sorted_elem in Hsel. }
  destruct (settings_choices describe langs) as [choices|] eqn:Hch.
  2: { apply choices_None in Hch. destruct Hch as (l & Hl & Hnone).
       subst langs. rewrite sorted_elem in Hl. rewrite Forall_forall in Hknown.
       destruct (Hknown l Hl) as [loc Hloc]. congruence. }
  pose proof (index_Some _ _ _ Hsel) as Hat.
  exists choices, select. split; [reflexivity|]. split.
  { destruct (choices_Some _ _ _ Hch) as [Hlen _]. rewrite Hlen.
    subst langs. apply sorted_length. }
  split; [exact Hat|]. split; [reflexivity|]. split.
  - unfold dialog_accept. now rewrite (getitem_inside _ _ _ Hat).
  - reflexivity.
Qed.

Lemma X19_settings_preselect_witness :
  exists choices select,
    settings_choices no_description ["eng"; "por"] = Some choices
    /\ choices = ["en"; "pt"]
    /\ ["eng"; "por"] !! select = Some "por"
    /\ onOCRSettings no_description dialog_accept
         ["por.traineddata"; "eng.traineddata"] "por" = Language "por".
Proof.
  destruct (X19_settings_preselect no_description
              ["por.traineddata"; "eng.traineddata"] "por")
    as (choices & select & Hch & _ & Hsel & _ & Hacc & _).
  - change (getAvailableTesseractLanguages
              ["por.traineddata"; "eng.traineddata"]) with ["por"; "eng"].
    left.
  - change (getAvailableTesseractLanguages
              ["por.traineddata"; "eng.traineddata"]) with ["por"; "eng"].
    repeat constructor; vm_compute; eexists; reflexivity.
  - exists choices, select.
    change (PyLib.sorted (getAvailableTesseractLanguages
              ["por.traineddata"; "eng.traineddata"])) with ["eng"; "por"]
      in Hch, Hsel.
    split; [exact Hch|]. split; [|split; [exact Hsel | exact Hacc]].
    vm_compute in Hch. now injection Hch as <-.
Defined.

(** * Points, line starts and leading white space *)

Lemma trunc_half_bounds (o n w : Z) :
  0 <= n < w * 2 ->
  o <= Z.quot (2 * o + n) 2 <= o + w
  /\ (0 <= o -> Z.quot (2 * o + n) 2 < o + w).
Proof.
  intros Hn. pose proof (Z.quot_rem' (2 * o + n) 2) as Hqr.
  destruct (Z.le_gt_cases 0 (2 * o + n)) as [Hpos|Hneg].
  - pose proof (Z.rem_bound_pos (2 * o + n) 2 Hpos ltac:(lia)). lia.
  - pose proof (Z.rem_bound_pos_neg (2 * o + n) 2 ltac:(lia) ltac:(lia)). lia.
Qed.

(** X20.  The point of a word lies in the captured region.  For an object
    at (l, t) of the given width and height, a word whose bounding box
    starts inside the image the OCR engine was given (the object enlarged by
    the resize factor) has its point in [l, l + width] by [t, t + height];
    the right and lower bounds are strict when l and t are not negative.
    (The magnitudes are those for which the float arithmetic is exact.) *)
Theorem X20_points_inside_region (xml : markup) (l t width height : Z)
    (p : HocrParser) (i : nat) (wd : OcrWord) (L T : Z) :
  HocrParser_init xml l t = Return p ->
  words p !! i = Some wd ->
  omap bbox_of (events xml) !! i = Some (L, T) ->
  Z.abs l < 2 ^ 51 -> Z.abs t < 2 ^ 51 -> width < 2 ^ 50 -> height < 2 ^ 50 ->
  0 <= L < fst (ocr_image_size width height) ->
  0 <= T < snd (ocr_image_size width height) ->
  (l <= x (point_of wd) <= l + width /\ t <= y (point_of wd) <= t + height)
  /\ (0 <= l -> x (point_of wd) < l + width)
  /\ (0 <= t -> y (point_of wd) < t + height).
Proof.
  intros Hinit Hwd Hbbox _ _ _ _ HL HT.
  pose proof (parsed_words xml l t p Hinit) as Hwords.
  assert (Hi : map coords (words p) !! i = Some (screen_coords l t (L, T))).
  { rewrite Hwords. change map with (@fmap list _).
    now rewrite list_lookup_fmap, Hbbox. }
  change map with (@fmap list _) in Hi. rewrite list_lookup_fmap, Hwd in Hi.
  injection Hi as Hl Ht. unfold screen_coords in Hl, Ht. simpl in Hl, Ht.
  unfold point_of. simpl x. simpl y. rewrite Hl, Ht, !trunc_toScreen.
  unfold ocr_image_size, IMAGE_RESIZE_FACTOR in HL, HT. simpl in HL, HT.
  destruct (trunc_half_bounds l L width HL) as [Hx Hx'].
  destruct (trunc_half_bounds t T height HT) as [Hy Hy'].
  auto.
Qed.

Lemma X20_points_inside_region_witness :
  point_of (mkOcrWord 6 (toScreen 100 70) (toScreen 50 40)) = mkPoint 135 70
  /\ (100 <= 135 <= 100 + 80 /\ 50 <= 70 <= 50 + 60).
Proof.
  split; [reflexivity|].
  exact (proj1 (X20_points_inside_region doc_page 100 50 80 60 page_parser 1
                  (mkOcrWord 6 (toScreen 100 70) (toScreen 50 40)) 70 40
                  eq_refl eq_refl eq_refl
                  ltac:(simpl; lia) ltac:(simpl; lia) ltac:(simpl; lia)
                  ltac:(simpl; lia) ltac:(vm_compute; split; congruence)
                  ltac:(vm_compute; split; congruence))).
Defined.

(** On a screen to the left of the primary one the coordinates are
    negative, [int()] cuts toward zero, and the point of a word at the last
    pixel column is on the right edge itself. *)
Example negative_origin_right_edge :
  Py.int_of_float (toScreen (-100) 19) = -100 + 10.
Proof. reflexivity. Qed.

Lemma line_scan_pass (pre rest : list Z) (start o n : Z) :
  Forall (fun b => b <= o) pre ->
  line_scan (pre ++ rest) start o n = line_scan rest (List.last pre start) o n.
Proof.
  intros Hpre. revert start.
  induction Hpre as [|b pre Hb Hpre IH]; intros start; [reflexivity|].
  rewrite <- app_comm_cons. cbn [line_scan].
  destruct (Z.ltb_spec o b); [lia|]. now rewrite IH, last_cons_default.
Qed.

Lemma handle_element_text (self self' : HocrParser) (ev : event) :
  is_element ev -> handle self ev = Return self' ->
  _textList self' = _textList self /\ textLen self' = textLen self.
Proof.
  destruct ev as [tag attrs|tag|data]; simpl; [| |contradiction].
  - intros _. unfold _startElement.
    destruct (_ || _); [now intros [= <-]|].
    destruct (String.eqb tag "span"); [|now intros [= <-]].
    destruct (attrs !! "class") as [cls|]; [|discriminate].
    destruct (String.eqb cls "ocr_line"); [now intros [= <-]|].
    destruct (String.eqb cls "ocr_word"); [|now intros [= <-]].
    destruct (attrs !! "title") as [title|]; [|discriminate].
    destruct (Py.split_space title) as [|? [|l [|t [|? [|? [|? ?]]]]]];
      try discriminate.
    destruct (Py.int l); [|discriminate].
    destruct (Py.truediv_overflows _ _); [discriminate|].
    destruct (Py.float_overflows _); [discriminate|].
    destruct (Py.int t); [|discriminate].
    destruct (Py.truediv_overflows _ _); [discriminate|].
    destruct (Py.float_overflows _); [discriminate|].
    now intros [= <-].
  - now intros _ [= <-].
Qed.

Lemma run_handlers_element_text (evs : list event) (self self' : HocrParser) :
  Forall is_element evs -> run_handlers self evs = Return self' ->
  _textList self' = _textList self /\ textLen self' = textLen self.
Proof.
  intros Hevs. revert self.
  induction Hevs as [|ev evs Hev Hevs IH]; intros self; simpl.
  - now intros [= <-].
  - destruct (handle self ev) as [self1|e] eqn:Hh; simpl; [|discriminate].
    intros Hrun. destruct (handle_element_text _ _ _ Hev Hh) as [Ht Hn].
    destruct (IH _ Hrun) as [Ht' Hn']. split; congruence.
Qed.

Lemma sorted_suffix (pre rest : list Z) :
  StronglySorted Z.le (pre ++ rest) -> StronglySorted Z.le rest.
Proof.
  induction pre as [|a pre IH]; simpl; [auto|].
  intros Hs. inversion Hs; subst. now apply IH.
Qed.

(** X21.  A line marker marks where its line starts.  When a line marker
    is followed, after element events only (the word marker, say), by
    character data that is neither empty nor white space only, the boundary
    recorded for it is the length of the text parsed before the marker, the
    line range of that offset starts at it and is not empty, and the text
    from there on starts with the character data. *)
Theorem X21_line_marker_starts_line (pre mid post : list event)
    (attrs : gmap string string) (d : string) (fin0 fin : ending) (l t : Z)
    (p0 p : HocrParser) :
  HocrParser_init (Markup pre fin0) l t = Return p0 ->
  attrs !! "class" = Some "ocr_line" ->
  Forall is_element mid ->
  Py.isspace d = false -> d <> "" ->
  HocrParser_init
    (Markup (pre ++ (StartElement "span" attrs :: mid)
                 ++ CharacterData d :: post) fin)
    l t = Return p ->
  lines p !! length (lines p0) = Some (_getStoryLength p0)
  /\ fst (_getLineOffsets p (_getStoryLength p0)) = _getStoryLength p0
  /\ _getStoryLength p0 < snd (_getLineOffsets p (_getStoryLength p0))
  /\ _getTextRange p (_getStoryLength p0) (_getStoryLength p0 + Py.len d) = d.
Proof.
  intros H0 Hcls Hmid Hsp Hne H.
  pose proof (parsed_boundaries _ _ _ _ H) as (Hsorted & Hbounded & _).
  pose proof (parsed_model _ _ _ _ H) as (_ & _ & _ & _ & Hlen).
  apply init_inv in H0. destruct H0 as (s0 & Hr0 & ->).
  apply init_inv in H. destruct H as (s3 & Hr & ->).
  simpl in Hr0, Hr. rewrite run_handlers_app, Hr0 in Hr. simpl in Hr.
  unfold _startElement in Hr. simpl in Hr. rewrite Hcls in Hr. simpl in Hr.
  rewrite run_handlers_app in Hr.
  destruct (run_handlers (append_line (textLen s0) s0) mid) as [s1|e] eqn:Hrm;
    simpl in Hr; [|discriminate].
  destruct (run_handlers_element_text _ _ _ Hmid Hrm) as [Ht1 Hn1].
  destruct (run_handlers_grows _ _ _ Hrm) as (_ & [ml Hl1] & _).
  simpl in Ht1, Hn1, Hl1.
  unfold _charData in Hr. rewrite Hsp in Hr.
  destruct (run_handlers_grows _ _ _ Hr) as ([more Ht] & [ml' Hl] & _).
  simpl in Ht, Hl. rewrite Ht1 in Ht. rewrite Hl1 in Hl.
  pose proof (run_handlers_inv _ _ _ (fresh_parser_inv l t) Hr0) as Hi0.
  pose proof (len_nonneg (Py.join (_textList s0))) as Hn0.
  pose proof (len_nonneg (Py.join more)) as Hnm.
  assert (Hd : 0 < Py.len d).
  { destruct d; [congruence|]. unfold Py.len. simpl String.length. lia. }
  assert (Htext : Py.join (_textList s3)
                  = Py.join (_textList s0) +:+ (d +:+ Py.join more)).
  { rewrite Ht, <- app_assoc, join_app. reflexivity. }
  assert (Htot : textLen s3
                 = textLen s0 + Py.len d + Py.len (Py.join more)).
  { simpl in Hlen. rewrite Hlen, Htext, (inv_len _ Hi0).
    unfold Py.len. rewrite !length_append_add. lia. }
  set (b := textLen s0) in *.
  assert (Hlines : lines s3 = ((lines s0 ++ [b]) ++ (ml ++ ml'))%list)
    by (rewrite Hl; now rewrite <- !app_assoc).
  simpl in Hsorted, Hbounded. rewrite Hlines in Hsorted, Hbounded.
  assert (Hpre : Forall (fun c => c <= b) (lines s0 ++ [b])).
  { apply Forall_app. split; [|constructor; [lia | constructor]].
    eapply Forall_impl; [exact (inv_lines_bounded _ Hi0)|].
    simpl. intros. subst b. lia. }
  assert (Hs' : StronglySorted Z.le (b :: ml ++ ml')).
  { apply (sorted_suffix (0 :: lines s0)).
    rewrite <- app_assoc in Hsorted. exact Hsorted. }
  assert (Hb' : Forall (fun c => c <= textLen s3) (b :: ml ++ ml')).
  { rewrite <- app_assoc in Hbounded.
    change (0 :: lines s0 ++ [b] ++ ml ++ ml')%list
      with ((0 :: lines s0) ++ b :: ml ++ ml')%list in Hbounded.
    apply Forall_app in Hbounded. exact (proj2 Hbounded). }
  unfold _getStoryLength, _getLineOffsets, _getTextRange. simpl.
  fold b. rewrite Hlines, line_scan_pass by exact Hpre. rewrite last_last.
  destruct (line_scan (ml ++ ml') b b (textLen s3)) as [s e] eqn:Hscan.
  pose proof (line_scan_bounds _ _ _ _ _ _ Hs' Hb' Hscan) as (Hge & _).
  assert (Hin : b < textLen s3) by lia.
  pose proof (line_scan_contains _ _ _ _ _ _ Hs' (Z.le_refl b) Hin Hscan)
    as (Hle & Hlt).
  simpl. split; [|split; [lia | split; [exact Hlt|]]].
  - rewrite <- app_assoc. simpl. now apply list_lookup_middle.
  - rewrite Htext. subst b. rewrite (inv_len _ Hi0).
    rewrite slice_inside.
    + replace (Py.len (Py.join (_textList s0)) + Py.len d
               - Py.len (Py.join (_textList s0))) with (Py.len d) by lia.
      unfold Py.len. rewrite !Nat2Z.id, substring_skip.
      apply substring_prefix.
    + lia.
    + unfold Py.len. rewrite !length_append_add. lia.
Qed.

Lemma X21_line_marker_starts_line_witness :
  lines page_parser !! 1%nat = Some 12
  /\ _getLineOffsets page_parser 12 = (12, 18)
  /\ _getTextRange page_parser 12 17 = "world".
Proof.
  destruct (X21_line_marker_starts_line
              (take 16 (events doc_page))
              [StartElement "span" (word_marker "bbox 20 90 60 130")]
              (drop 19 (events doc_page))
              (marker "ocr_line") "world" Unfinished Complete 100 50
              _ page_parser eq_refl eq_refl
              ltac:(repeat constructor) eq_refl ltac:(discriminate) eq_refl)
    as (Hline & _ & _ & Htxt).
  split; [exact Hline|]. split; [reflexivity | exact Htxt].
Defined.

Lemma handle_quiet (self self' : HocrParser) (ev : event) :
  blank_or_element ev -> _hasBlockHadContent self = false ->
  handle self ev = Return self' ->
  _hasBlockHadContent self' = false
  /\ _textList self' = _textList self /\ textLen self' = textLen self.
Proof.
  destruct ev as [tag attrs|tag|data]; simpl.
  - intros _ Hflag. unfold _startElement.
    destruct (_ || _); [now intros [= <-]|].
    destruct (String.eqb tag "span"); [|now intros [= <-]].
    destruct (attrs !! "class") as [cls|]; [|discriminate].
    destruct (String.eqb cls "ocr_line"); [now intros [= <-]|].
    destruct (String.eqb cls "ocr_word"); [|now intros [= <-]].
    destruct (attrs !! "title") as [title|]; [|discriminate].
    destruct (Py.split_space title) as [|? [|l [|t [|? [|? [|? ?]]]]]];
      try discriminate.
    destruct (Py.int l); [|discriminate].
    destruct (Py.truediv_overflows _ _); [discriminate|].
    destruct (Py.float_overflows _); [discriminate|].
    destruct (Py.int t); [|discriminate].
    destruct (Py.truediv_overflows _ _); [discriminate|].
    destruct (Py.float_overflows _); [discriminate|].
    now intros [= <-].
  - now intros _ Hflag [= <-].
  - intros Hsp Hflag [= <-]. unfold _charData. rewrite Hsp, Hflag. simpl.
    auto.
Qed.

Lemma run_handlers_quiet (evs : list event) (self self' : HocrParser) :
  Forall blank_or_element evs -> _hasBlockHadContent self = false ->
  run_handlers self evs = Return self' ->
  _textList self' = _textList self /\ textLen self' = textLen self.
Proof.
  intros Hevs. revert self.
  induction Hevs as [|ev evs Hev Hevs IH]; intros self Hflag; simpl.
  - now intros [= <-].
  - destruct (handle self ev) as [self1|e] eqn:Hh; simpl; [|discriminate].
    intros Hrun. destruct (handle_quiet _ _ _ Hev Hflag Hh) as (Hf & Ht & Hn).
    destruct (IH _ Hf Hrun) as [Ht' Hn']. split; congruence.
Qed.

(** X22.  No text comes out of a block before its first character data
    that is not white space only: after the opening of a [p] or [div], and
    likewise at the very start of the markup, white space and element events
    leave the text and its length as they are. *)
Theorem X22_leading_blank_dropped (pre evs : list event) (tag : string)
    (attrs : gmap string string) (fin1 fin2 : ending) (l t : Z)
    (p1 p2 : HocrParser) :
  Forall blank_or_element evs ->
  (tag = "p" \/ tag = "div" ->
   HocrParser_init (Markup pre fin1) l t = Return p1 ->
   HocrParser_init (Markup (pre ++ StartElement tag attrs :: evs) fin2) l t
     = Return p2 ->
   text p2 = text p1 /\ _getStoryLength p2 = _getStoryLength p1)
  /\ (HocrParser_init (Markup evs fin2) l t = Return p2 ->
      text p2 = "" /\ _getStoryLength p2 = 0).
Proof.
  intros Hevs. split.
  - intros Htag H1 H2.
    apply init_inv in H1. destruct H1 as (s1 & Hr1 & ->).
    apply init_inv in H2. destruct H2 as (s2 & Hr2 & ->).
    simpl in Hr1, Hr2. rewrite run_handlers_app, Hr1 in Hr2. simpl in Hr2.
    assert (Hblock : _startElement s1 tag attrs
                     = Return (set_hasBlockHadContent false s1)).
    { unfold _startElement. now destruct Htag as [-> | ->]. }
    rewrite Hblock in Hr2. simpl in Hr2.
    destruct (run_handlers_quiet evs (set_hasBlockHadContent false s1) s2
                Hevs eq_refl Hr2) as [Ht Hn].
    simpl in Ht, Hn. unfold _getStoryLength. simpl. now rewrite Ht, Hn.
  - intros H2. apply init_inv in H2. destruct H2 as (s2 & Hr2 & ->).
    simpl in Hr2.
    destruct (run_handlers_quiet evs (fresh_parser l t) s2 Hevs eq_refl Hr2)
      as [Ht Hn].
    simpl in Ht, Hn. unfold _getStoryLength. simpl. now rewrite Ht, Hn.
Qed.

Lemma X22_leading_blank_dropped_witness :
  exists p1 p2,
    HocrParser_init (Markup (take 6 (events doc_two_blocks)) Unfinished) 100 50
    = Return p1
    /\ HocrParser_init doc_two_blocks 100 50 = Return p2
    /\ text p1 = "Hi"
    /\ text p2 = "Hi" /\ _getStoryLength p2 = 2 /\ lines p2 = [2].
Proof.
  eexists. eexists. split; [reflexivity|]. split; [reflexivity|].
  split; [reflexivity|].
  match goal with |- text ?p = _ /\ _ =>
    destruct (proj1 (X22_leading_blank_dropped
                (take 6 (events doc_two_blocks))
                [CharacterData "  "; StartElement "span" (marker "ocr_line");
                 CharacterData (String "010" "")]
                "div" ∅ Unfinished Unfinished 100 50 _ p
                ltac:(repeat constructor))
              ltac:(now right) eq_refl eq_refl) as [Ht Hn]
  end.
  split; [exact Ht|]. split; [exact Hn | reflexivity].
Defined.
